(** * httpbin: streaming emitters and scenario simulators

    A shallow embedding of the Flask handlers of
    [routes/advanced/advanced_routes.py],
    [routes/advanced/streaming/realtime.py],
    [routes/testing/simulation_routes.py] and
    [routes/testing/scenarios/stress_tests.py], with the theorems that
    settle what the specification says about them.

    Conventions of the embedding:
    - Python [int] is [Z]; Python [float] is an IEEE binary64 value,
      [spec_float] with [prec = 53] and [emax = 1024];
    - a handler that can raise returns a [result]; a generator (or a
      handler that sleeps) is a value of [gen], the events it performs in
      order together with how it ended;
    - what a handler reads from the wall clock or the random generator is
      an argument of its model, so that a theorem quantifies over every
      reading and every draw;
    - request text is ASCII, and a query is the map [request.args] from
      parameter names to their text;
    - the arguments that a route takes from the path have gone through
      its converter: [<int:n>] and [<float:x>] pass no negative number. *)

From Stdlib Require Import ZArith String Ascii List Lia Bool.
From Stdlib Require Import SpecFloat.
From stdpp Require Import base option list gmap strings pretty sorting.
From Equations Require Import Equations.

Local Open Scope string_scope.
Local Open Scope list_scope.
Local Open Scope Z_scope.

(** ** Exceptions and fallible computations *)

Inductive exn :=
| ValueError
| ZeroDivisionError
| IndexError
| OverflowError.

Inductive result (A : Type) :=
| Ok (a : A)
| Raise (e : exn).
Arguments Ok {A} a.
Arguments Raise {A} e.

#[global] Instance result_ret : MRet result := fun _ a => Ok a.
#[global] Instance result_bind : MBind result := fun _ _ k r =>
  match r with
  | Ok a => k a
  | Raise e => Raise e
  end.

(** ** Floats *)

Module Float.

Definition float := spec_float.
Definition prec : Z := 53.
Definition emax : Z := 1024.

Definition of_Z (n : Z) : float := binary_normalize prec emax n 0 false.

(** [m * 10^e] rounded to the nearest binary64, ties to even: the value
    [float()] gives to a decimal literal. *)
Definition of_decimal (neg : bool) (m : Z) (e : Z) : float :=
  if m <=? 0 then S754_zero neg
  else if 0 <=? e then
    binary_round prec emax neg (Z.to_pos (m * 10 ^ e)) 0
  else
    let '(q, e', l) := SFdiv_core_binary prec emax m 0 (10 ^ (- e)) 0 in
    binary_round_aux prec emax neg q e' l.

Definition zero : float := S754_zero false.
Definition one : float := Eval vm_compute in of_Z 1.
Definition five : float := Eval vm_compute in of_Z 5.
Definition half : float := Eval vm_compute in of_decimal false 5 (-1).
Definition tenth : float := Eval vm_compute in of_decimal false 1 (-1).

Definition ltb (a b : float) : bool := SFltb a b.
Definition leb (a b : float) : bool := SFleb a b.
Definition is_nan (a : float) : bool :=
  match a with S754_nan => true | _ => false end.

Definition add := SFadd prec emax.
Definition sub := SFsub prec emax.
Definition mul := SFmul prec emax.
Definition div := SFdiv prec emax.

(** The nanoseconds of a second, and the bounds of a signed 64-bit
    count of them: [-2^63] and [2^63]. *)
Definition giga : float := Eval vm_compute in of_Z (10 ^ 9).
Definition min_count : float := Eval vm_compute in of_Z (- 2 ^ 63).
Definition max_count : float := Eval vm_compute in of_Z (2 ^ 63).

End Float.
Import Float.

Declare Scope float_scope.
Delimit Scope float_scope with float.
Infix "<?" := Float.ltb : float_scope.
Infix "<=?" := Float.leb : float_scope.

(** The builtins [min(a, b)] and [max(a, b)] keep their first argument
    unless the second compares strictly below (above) it. *)
Definition py_min (a b : float) : float := if (b <? a)%float then b else a.
Definition py_max (a b : float) : float := if (a <? b)%float then b else a.

(** ** Text: [str.strip], [str.split], [int()] and [float()] *)

Module Text.

Definition code (c : ascii) : Z := Z.of_nat (nat_of_ascii c).


(** The characters that [int()] and [float()] skip around an ASCII
    numeral, those of C's [isspace]: the separators 28 to 31 are not
    among them. *)
Definition is_blank (c : ascii) : bool :=
  ((9 <=? code c) && (code c <=? 13)) || (code c =? 32).

Definition digit_of (c : ascii) : option Z :=
  if (48 <=? code c) && (code c <=? 57) then Some (code c - 48) else None.

Fixpoint lstrip (space : ascii -> bool) (l : list ascii) : list ascii :=
  match l with
  | c :: l' => if space c then lstrip space l' else l
  | [] => []
  end.
Definition strip_chars (space : ascii -> bool) (l : list ascii) : list ascii :=
  rev (lstrip space (rev (lstrip space l))).


(** [s.split(sep)] for a one-character separator: never the empty list. *)
Fixpoint split_chars (sep : ascii) (cur : list ascii) (l : list ascii)
  : list (list ascii) :=
  match l with
  | [] => [rev cur]
  | c :: l' =>
      if Ascii.eqb c sep then rev cur :: split_chars sep [] l'
      else split_chars sep (c :: cur) l'
  end.

Definition split (sep : ascii) (s : string) : list string :=
  string_of_list_ascii <$> split_chars sep [] (list_ascii_of_string s).

(** A run of decimal digits in which single underscores may separate
    digits, read to the end of the text. [seen] says that the previous
    character was a digit. *)
Fixpoint digits_acc (acc : Z) (seen : bool) (l : list ascii) : option Z :=
  match l with
  | [] => if seen then Some acc else None
  | c :: l' =>
      match digit_of c with
      | Some d => digits_acc (10 * acc + d) true l'
      | None =>
          if Ascii.eqb c "_" && seen then digits_acc acc false l' else None
      end
  end.

Definition signed {A} (l : list ascii) (k : bool -> list ascii -> A) : A :=
  match l with
  | "-"%char :: l' => k true l'
  | "+"%char :: l' => k false l'
  | _ => k false l
  end.

(** The digits of a numeral: its underscores and its sign do not count,
    its leading zeros do. *)
Definition count_digits (l : list ascii) : Z :=
  Z.of_nat (length (omap digit_of l)).

(** [sys.int_max_str_digits], as CPython sets it since 3.11 (and since
    the security releases of 3.7 to 3.10). *)
Definition max_str_digits : Z := 4300.

(** [int(s)] in base ten: a numeral of more than [max_str_digits]
    digits is refused like one that is ill-formed. *)
Definition py_int (s : string) : result Z :=
  signed (strip_chars is_blank (list_ascii_of_string s)) (fun neg l =>
    match digits_acc 0 false l with
    | Some n =>
        if max_str_digits <? count_digits l then Raise ValueError
        else Ok (if neg then - n else n)
    | None => Raise ValueError
    end).

(** Underscores of a float literal: each one between two digits. *)
Fixpoint drop_underscores (seen : bool) (l : list ascii)
  : option (list ascii) :=
  match l with
  | [] => Some []
  | c :: l' =>
      if Ascii.eqb c "_" then
        match l' with
        | d :: _ =>
            if seen && bool_decide (is_Some (digit_of d))
            then drop_underscores false l' else None
        | [] => None
        end
      else cons c <$> drop_underscores (bool_decide (is_Some (digit_of c))) l'
  end.

(** The leading digits of [l]: their value, how many, and the rest. *)
Fixpoint span_digits (acc : Z) (n : Z) (l : list ascii)
  : Z * Z * list ascii :=
  match l with
  | c :: l' =>
      match digit_of c with
      | Some d => span_digits (10 * acc + d) (n + 1) l'
      | None => (acc, n, l)
      end
  | [] => (acc, n, l)
  end.

Definition lower (c : ascii) : ascii :=
  if (65 <=? code c) && (code c <=? 90)
  then ascii_of_nat (nat_of_ascii c + 32) else c.

Definition exponent (l : list ascii) : option Z :=
  match l with
  | [] => Some 0
  | c :: l' =>
      if Ascii.eqb (lower c) "e" then
        signed l' (fun neg d =>
          match span_digits 0 0 d with
          | (e, n, []) => if 0 <? n then Some (if neg then - e else e) else None
          | _ => None
          end)
      else None
  end.

Definition decimal (neg : bool) (l : list ascii) : option float :=
  let '(i, ni, l1) := span_digits 0 0 l in
  let '(m, nf, l2) :=
    match l1 with
    | "."%char :: l1' =>
        let '(m, n, l2) := span_digits i 0 l1' in (m, n, l2)
    | _ => (i, 0, l1)
    end in
  if 0 <? ni + nf then
    e ← exponent l2; Some (of_decimal neg m (e - nf))
  else None.

(** [float(s)]. *)
Definition py_float (s : string) : result float :=
  signed (strip_chars is_blank (list_ascii_of_string s)) (fun neg l =>
    let word := string_of_list_ascii (lower <$> l) in
    if bool_decide (word = "inf" ∨ word = "infinity") then Ok (S754_infinity neg)
    else if bool_decide (word = "nan") then Ok S754_nan
    else
      match drop_underscores false l ≫= decimal neg with
      | Some x => Ok x
      | None => Raise ValueError
      end).

End Text.
Import Text.

(** ** JSON values, [json.dumps] and responses *)

(** A dictionary keeps its keys in insertion order. [F] is the type of the
    float leaves: a response body built by [jsonify] is a [json float],
    and the dictionaries that the generators hand to [json.dumps] hold no
    float, which their type [json Empty_set] records. *)
#[warnings="-register-all"]
Inductive json (F : Type) :=
| JNull
| JBool (b : bool)
| JInt (n : Z)
| JFloat (x : F)
| JStr (s : string)
| JList (l : list (json F))
| JObj (kvs : list (string * json F)).
Arguments JNull {F}.
Arguments JBool {F} b.
Arguments JInt {F} n.
Arguments JFloat {F} x.
Arguments JStr {F} s.
Arguments JList {F} l.
Arguments JObj {F} kvs.

Module Json.

(** [d[key]] on a dictionary. *)
Fixpoint assoc {A} (key : string) (kvs : list (string * A)) : option A :=
  match kvs with
  | [] => None
  | (k, v) :: kvs' => if String.eqb k key then Some v else assoc key kvs'
  end.

Definition get {F} (key : string) (j : json F) : option (json F) :=
  match j with
  | JObj kvs => assoc key kvs
  | _ => None
  end.

Definition dquote : ascii := "034"%char.
Definition backslash : ascii := "092"%char.

Definition hex_digit (n : Z) : ascii :=
  ascii_of_nat (Z.to_nat (if n <? 10 then 48 + n else 87 + n)).

(** The escapes of [json.dumps] with [ensure_ascii]: the quote and the
    backslash, and everything outside [' '..'~']. *)
Definition escape (c : ascii) : list ascii :=
  if Ascii.eqb c dquote then [backslash; dquote]
  else if Ascii.eqb c backslash then [backslash; backslash]
  else if (32 <=? code c) && (code c <=? 126) then [c]
  else if code c =? 10 then [backslash; "n"%char]
  else if code c =? 13 then [backslash; "r"%char]
  else if code c =? 9 then [backslash; "t"%char]
  else if code c =? 8 then [backslash; "b"%char]
  else if code c =? 12 then [backslash; "f"%char]
  else [backslash; "u"%char; "0"%char; "0"%char;
        hex_digit (code c / 16); hex_digit (code c mod 16)].

Definition quote (s : string) : string :=
  string_of_list_ascii
    (dquote :: (list_ascii_of_string s ≫= escape) ++ [dquote]).

Fixpoint join (sep : string) (l : list string) : string :=
  match l with
  | [] => ""
  | [x] => x
  | x :: l' => x +:+ sep +:+ join sep l'
  end.

(** [json.dumps(j)] with the default separators. *)
Fixpoint dumps (j : json Empty_set) : string :=
  match j with
  | JNull => "null"
  | JBool b => if b then "true" else "false"
  | JInt n => pretty n
  | JFloat x => match x with end
  | JStr s => quote s
  | JList l => "[" +:+ join ", " (map dumps l) +:+ "]"
  | JObj kvs =>
      "{" +:+ join ", " (map (fun kv => quote kv.1 +:+ ": " +:+ dumps kv.2) kvs)
          +:+ "}"
  end.

End Json.

(** What a generator, or a handler that sleeps, does to the outside. *)
Inductive event :=
| Yield (data : string)
| Sleep (secs : float).

(** The events performed, in order, and how the run ended. *)
Definition gen (A : Type) : Type := list event * result A.

#[global] Instance gen_ret : MRet gen := fun _ a => ([], Ok a).
#[global] Instance gen_bind : MBind gen := fun _ _ k m =>
  match m with
  | (t, Ok a) => let '(t', r) := k a in (t ++ t', r)
  | (t, Raise e) => (t, Raise e)
  end.

Definition yield (data : string) : gen unit := ([Yield data], Ok tt).

(** [time.sleep(secs)] first turns the length into a count of
    nanoseconds, [secs * 1e9] as a float. NaN is refused with
    [ValueError]; a count outside the signed 64-bit integers, below
    [-2^63] or above [2^63], with [OverflowError]; after that a negative
    length is refused with [ValueError], and so is, in CPython 3.11 on
    x86-64, the one count [2^63] that the test of the range lets
    through. Left out, for want of a clock: the system call refuses a
    length that reaches [2^63] nanoseconds once added to the reading of
    the monotonic clock. *)
Definition nanoseconds (secs : float) : float := Float.mul secs Float.giga.

Definition sleep_ok (secs : float) : bool :=
  (Float.zero <=? secs)%float && (nanoseconds secs <? Float.max_count)%float.

(** What [time.sleep] raises for a length that it refuses. *)
Definition sleep_refusal (secs : float) : exn :=
  if (nanoseconds secs <? Float.min_count)%float
     || (Float.max_count <? nanoseconds secs)%float
  then OverflowError else ValueError.

Definition sleep (secs : float) : gen unit :=
  if sleep_ok secs then ([Sleep secs], Ok tt)
  else ([], Raise (sleep_refusal secs)).

(** [for i in l: body(i)] *)
Fixpoint for_each {A} (l : list A) (body : A -> gen unit) : gen unit :=
  match l with
  | [] => mret tt
  | i :: l' => body i ≫= fun _ => for_each l' body
  end.

(** [range(n)] *)
Definition range (n : Z) : list Z := seqZ 0 n.

(** A view returns a body for [jsonify] with a status, or a [Response]
    over a generator, which runs while the response is sent. *)
Inductive response :=
| Jsonify (body : json float) (status : Z)
| Streaming (mimetype : string) (headers : list (string * string))
            (run : gen unit).

Definition status_of (r : response) : Z :=
  match r with
  | Jsonify _ st => st
  | Streaming _ _ _ => 200
  end.

Definition body_of (r : response) : option (json float) :=
  match r with
  | Jsonify b _ => Some b
  | Streaming _ _ _ => None
  end.

(** [request.args]: the first value of each query parameter. *)
Abbreviation args := (gmap string string).

(** [int(request.args.get(name, default))] *)
Definition arg_int (a : args) (name : string) (default : Z) : result Z :=
  match a !! name with
  | Some s => py_int s
  | None => Ok default
  end.

(** [float(request.args.get(name, default))] *)
Definition arg_float (a : args) (name : string) (default : float)
  : result float :=
  match a !! name with
  | Some s => py_float s
  | None => Ok default
  end.

(** [a % b] on integers: the sign of the result is that of [b]. *)
Definition py_mod (a b : Z) : result Z :=
  if b =? 0 then Raise ZeroDivisionError else Ok (a mod b).

(** [random.choice(seq)], [draw] being what the generator supplies. *)
Definition choice {A} (l : list A) (draw : nat) : result A :=
  match l !! (draw mod length l)%nat with
  | Some x => Ok x
  | None => Raise IndexError
  end.

(** ** routes/testing/simulation_routes.py *)

Module Simulation.

(** [now] stands for [datetime.utcnow().isoformat()] in all handlers. *)


(** [draw] is the value of [random.random()]. *)
Definition random_failure (probability : float) (draw : float) (now : string)
  : response :=
  let probability := py_max Float.zero (py_min Float.one probability) in
  if (draw <? probability)%float then
    Jsonify (JObj [("error", JStr "Simulated failure");
                   ("probability", JFloat probability);
                   ("message", JStr "This endpoint randomly failed");
                   ("timestamp", JStr (now +:+ "Z"))]) 500
  else
    Jsonify (JObj [("success", JBool true);
                   ("probability", JFloat probability);
                   ("message",
                     JStr "Request succeeded despite failure probability");
                   ("timestamp", JStr (now +:+ "Z"))]) 200.

(** [current_minute] is [datetime.utcnow().minute], [offset] the value of
    [random.randint(1, 15)], [reset_time] the clock reading truncated to
    the minute. *)
Definition rate_limit_test (a : args) (current_minute offset : Z)
    (reset_time : string) : result response :=
  limit ← arg_int a "limit" 10;
  request_count ← py_mod (current_minute + offset) limit;
  if limit <=? request_count then
    Ok (Jsonify (JObj [("error", JStr "Rate limit exceeded");
                       ("limit", JInt limit);
                       ("retry_after", JInt 60);
                       ("current_count", JInt request_count)]) 429)
  else
    Ok (Jsonify (JObj [("success", JBool true);
                       ("rate_limit", JInt limit);
                       ("current_count", JInt request_count);
                       ("remaining", JInt (limit - request_count));
                       ("reset_time", JStr (reset_time +:+ "Z"))]) 200).

End Simulation.

(** ** Decimal numerals and lists of them, to state what a handler reads

    A numeral is written with blanks around it, a minus sign or none,
    and the characters of its decimal digits; its value is what the
    digits say. *)










(** ** routes/advanced/advanced_routes.py *)

Definition nl : string := String "010"%char "".

Module Advanced.

(** What [streaming_response] computes from the query before it builds
    the response: the chunk count and the delay it then uses. *)
Definition streaming_params (a : args) : result (Z * float) :=
  n ← arg_int a "chunks" 10;
  let chunks := Z.min n 100 in
  x ← arg_float a "delay" Float.half;
  let delay := py_min x Float.five in
  Ok (chunks, delay).

Section Streaming.
(** [utcnow i]: the clock reading of iteration [i], in ISO format. *)
Variable utcnow : Z -> string.
Variables (chunks : Z) (delay : float).

Definition chunk_data (i : Z) : json Empty_set :=
  JObj [("chunk", JInt (i + 1));
        ("total_chunks", JInt chunks);
        ("timestamp", JStr (utcnow i +:+ "Z"));
        ("data",
          JStr ("This is chunk " +:+ pretty (i + 1) +:+ " of "
                  +:+ pretty chunks))].

Definition generate : gen unit :=
  for_each (range chunks) (fun i =>
    yield (Json.dumps (chunk_data i) +:+ nl);;
    if i <? chunks - 1 then sleep delay else mret tt).
End Streaming.

Definition streaming_response (a : args) (utcnow : Z -> string)
  : result response :=
  '(chunks, delay) ← streaming_params a;
  Ok (Streaming "application/json" [] (generate utcnow chunks delay)).

Definition sse_params (a : args) : result (Z * float) :=
  n ← arg_int a "events" 10;
  let events := Z.min n 50 in
  x ← arg_float a "interval" Float.one;
  let interval := py_min x Float.five in
  Ok (events, interval).

Definition dq : string := String Json.dquote "".

(** The literal of the final [yield]. *)
Definition complete_frame : string :=
  "event: complete" +:+ nl +:+
  "data: {" +:+ dq +:+ "message" +:+ dq +:+ ": " +:+ dq +:+ "Stream complete"
    +:+ dq +:+ "}" +:+ nl +:+ nl.

Section EventStream.
(** [randint i]: the value of [random.randint(1, 100)] in iteration [i]. *)
Variables (utcnow : Z -> string) (randint : Z -> Z).
Variables (events : Z) (interval : float).

Definition event_data (i : Z) : json Empty_set :=
  JObj [("event_id", JInt (i + 1));
        ("timestamp", JStr (utcnow i +:+ "Z"));
        ("data",
          JStr ("Event " +:+ pretty (i + 1) +:+ " of " +:+ pretty events));
        ("random_value", JInt (randint i))].

Definition data_frame (i : Z) : string :=
  "data: " +:+ Json.dumps (event_data i) +:+ nl +:+ nl.

Definition event_stream : gen unit :=
  for_each (range events) (fun i =>
    yield (data_frame i);;
    if i <? events - 1 then sleep interval else mret tt);;
  yield complete_frame.
End EventStream.

Definition server_sent_events (a : args) (utcnow : Z -> string)
    (randint : Z -> Z) : result response :=
  '(events, interval) ← sse_params a;
  Ok (Streaming "text/event-stream"
        [("Cache-Control", "no-cache"); ("Connection", "keep-alive")]
        (event_stream utcnow randint events interval)).

End Advanced.

(** ** routes/advanced/streaming/realtime.py

    The two timed feeds loop on the wall clock; what is embedded here is
    the part of each handler that turns the query into the bounds of that
    loop. *)

Module Realtime.

(** [live_data_feed]: the feed type and the duration. *)
Definition live_data_feed_params (a : args) : result (string * Z) :=
  let feed_type := default "metrics" (a !! "feed_type") in
  n ← arg_int a "duration" 30;
  let duration := Z.min n 120 in
  Ok (feed_type, duration).

(** [system_status_stream]: the interval and the duration. *)
Definition system_status_stream_params (a : args) : result (float * Z) :=
  x ← arg_float a "interval" (Float.of_Z 3);
  let interval := py_max Float.one x in
  n ← arg_int a "duration" 60;
  let duration := Z.min n 300 in
  Ok (interval, duration).

End Realtime.

(** ** routes/testing/scenarios/stress_tests.py *)

(** [sorted(l, key=key)]: a stable sort on integer keys. *)
Fixpoint insert_by {A} (key : A -> Z) (x : A) (l : list A) : list A :=
  match l with
  | [] => [x]
  | y :: l' => if key x <=? key y then x :: l else y :: insert_by key x l'
  end.

Definition sorted {A} (key : A -> Z) (l : list A) : list A :=
  foldr (insert_by key) [] l.

(** [sum(l)] over floats, added from left to right, and [total / n] for
    an integer [n], which raises when [n] is 0 (there [sum] is the
    integer 0, and the division raises all the same). *)
Definition py_sum (l : list float) : float := foldl Float.add Float.zero l.

Definition py_truediv (total : float) (n : Z) : result float :=
  if n =? 0 then Raise ZeroDivisionError
  else Ok (Float.div total (Float.of_Z n)).

Module Stress.

(** What one worker thread reads: [time.time()] before and after its
    sleep, and the clock for its timestamp. *)
Record reading := {
  start_time : float;
  end_time : float;
  utcnow : string
}.

(** The dictionary a worker appends to [results]. *)
Record connection := {
  connection_id : Z;
  duration : float;
  timestamp : string
}.

Definition connection_json (r : connection) : json float :=
  JObj [("connection_id", JInt (connection_id r));
        ("duration", JFloat (duration r));
        ("timestamp", JStr (timestamp r))].

Definition simulate_connection (clock : Z -> reading) (conn_id : Z)
  : connection :=
  {| connection_id := conn_id;
     duration := Float.sub (end_time (clock conn_id)) (start_time (clock conn_id));
     timestamp := utcnow (clock conn_id) +:+ "Z" |}.

(** One thread is started per [i] in [range(count)] and all are joined.
    Each thread appends once to the shared list when it is done, so that
    after the joins the list holds the results in the order in which the
    threads finished: [finished] is that order, which the scheduler
    picks among the permutations of [range(count)]. *)
Definition connection_simulation (count : Z) (finished : list Z)
    (clock : Z -> reading) (now : string) : result response :=
  let count := Z.min count 50 in
  let results := simulate_connection clock <$> finished in
  average_duration ←
    py_truediv (py_sum (duration <$> results)) (Z.of_nat (length results));
  Ok (Jsonify
        (JObj [("simulated_connections", JInt count);
               ("results",
                 JList (connection_json <$> sorted connection_id results));
               ("average_duration", JFloat average_duration);
               ("timestamp", JStr (now +:+ "Z"))]) 200).

Definition base_case : json float :=
  JObj [("level", JInt 0); ("message", JStr "Base case reached")].

(** [level_time l]: the clock reading taken at level [l], after its
    child has returned. *)
Equations? cascade_function (level_time : Z -> string) (current_depth : Z)
  : gen (json float) by wf (Z.to_nat current_depth) lt :=
  cascade_function level_time current_depth
    with decide (current_depth ≤ 0) => {
    | left _ => mret base_case
    | right _ =>
        sleep Float.tenth;;
        child_result ← cascade_function level_time (current_depth - 1);
        mret (JObj [("level", JInt current_depth);
                    ("message",
                      JStr ("Processing level " +:+ pretty current_depth));
                    ("child", child_result);
                    ("timestamp",
                      JStr (level_time current_depth +:+ "Z"))]) }.
Proof. lia. Qed.

Definition cascade_requests (depth : Z) (level_time : Z -> string)
    (start_time end_time : float) (now : string) : gen response :=
  let depth := Z.min depth 10 in
  result ← cascade_function level_time depth;
  mret (Jsonify
          (JObj [("requested_depth", JInt depth);
                 ("total_processing_time",
                   JFloat (Float.sub end_time start_time));
                 ("cascade_result", result);
                 ("timestamp", JStr (now +:+ "Z"))]) 200).

(** The levels of a nested trace, outermost first. *)
Fixpoint levels (j : json float) : list Z :=
  match j with
  | JObj kvs =>
      match Json.assoc "level" kvs with
      | Some (JInt n) => [n]
      | _ => []
      end ++
      (fix child (kvs : list (string * json float)) : list Z :=
         match kvs with
         | [] => []
         | (k, v) :: kvs' =>
             if String.eqb k "child" then levels v else child kvs'
         end) kvs
  | _ => []
  end.

(** The innermost dictionary of a nested trace. *)
Fixpoint innermost (j : json float) : json float :=
  match j with
  | JObj kvs =>
      (fix child (kvs : list (string * json float)) : json float :=
         match kvs with
         | [] => j
         | (k, v) :: kvs' =>
             if String.eqb k "child" then innermost v else child kvs'
         end) kvs
  | _ => j
  end.

End Stress.

(** ** Traces of paced loops *)

(** [sep] between every two consecutive elements of [l], and nowhere else. *)
Fixpoint interleave {A} (sep : A) (l : list A) : list A :=
  match l with
  | [] => []
  | x :: l' =>
      match l' with
      | [] => [x]
      | _ :: _ => x :: sep :: interleave sep l'
      end
  end.

Definition yields (t : list event) : list string :=
  t ≫= fun ev => match ev with Yield data => [data] | Sleep _ => [] end.

Definition sleeps (t : list event) : list float :=
  t ≫= fun ev => match ev with Yield _ => [] | Sleep secs => [secs] end.

(** The loop shared by [generate] and [event_stream]: a frame per
    iteration and a pause after each but the last. *)
Definition paced (n : Z) (pause : float) (frame : Z -> string) : gen unit :=
  for_each (range n) (fun i =>
    yield (frame i);;
    if i <? n - 1 then sleep pause else mret tt).

(** ** More of the builtins: [str] methods and sleeping for an integer

    A string is the sequence of its characters, a character being one
    of code below 256. *)

Module Str.

Definition chars (s : string) : list ascii := list_ascii_of_string s.
Definition text (l : list ascii) : string := string_of_list_ascii l.

(** [c.lower()] for a character of code below 256: the capitals A-Z,
    and the accented capitals 192-222 but for the sign 215, have their
    small letter 32 places further on. *)
Definition lower_char (c : ascii) : ascii :=
  if ((65 <=? code c) && (code c <=? 90)) ||
     ((192 <=? code c) && (code c <=? 222) && negb (code c =? 215))
  then ascii_of_nat (nat_of_ascii c + 32) else c.

(** [s.lower()] *)
Definition py_lower (s : string) : string := text (lower_char <$> chars s).

Fixpoint starts (p l : list ascii) : bool :=
  match p, l with
  | [], _ => true
  | a :: p', b :: l' => Ascii.eqb a b && starts p' l'
  | _ :: _, [] => false
  end.

(** [s.startswith(p)] *)
Definition startswith (s p : string) : bool := starts (chars p) (chars s).

Fixpoint occurs (p l : list ascii) : bool :=
  starts p l ||
  match l with
  | [] => false
  | _ :: l' => occurs p l'
  end.

(** [needle in hay] on two strings. *)
Definition contains (needle hay : string) : bool :=
  occurs (chars needle) (chars hay).

(** [s[n:]] and [s[:n]] for a literal [n >= 0]. *)
Definition slice_from (n : nat) (s : string) : string := text (drop n (chars s)).
Definition slice_to (n : nat) (s : string) : string := text (take n (chars s)).

(** [s * n] *)
Definition repeat_str (s : string) (n : Z) : string :=
  text (mjoin (replicate (Z.to_nat n) (chars s))).

(** [len(s)] *)
Definition len (s : string) : Z := Z.of_nat (length (chars s)).

End Str.

(** [time.sleep(secs)] for an integer: the count of nanoseconds is an
    exact integer, which fits in 64 bits when the seconds are at most
    [max_seconds] either way; beyond that [OverflowError] is raised,
    and [ValueError] for the other negative lengths. What [sleep]
    leaves out at the top of the range is left out here too; the
    integers slept for below are at most 30. *)
Definition max_seconds : Z := 9223372036.

Definition sleep_int (secs : Z) : gen unit :=
  if (secs <? - max_seconds) || (max_seconds <? secs) then
    ([], Raise OverflowError)
  else if secs <? 0 then ([], Raise ValueError)
  else ([Sleep (Float.of_Z secs)], Ok tt).

(** A fallible step inside a handler that sleeps. *)
Definition lift {A} (r : result A) : gen A := ([], r).

(** [range(start, stop)] *)
Definition range2 (start stop : Z) : list Z := seqZ start (stop - start).

(** ** The rest of routes/testing/simulation_routes.py *)

Module SimulationRoutes.

(** [elapsed] is [(end_time - start_time).total_seconds()] for the two
    clock readings [start_time] and [end_time]. *)
Definition slow_response (a : args) (elapsed : float)
    (start_time end_time : string) : gen response :=
  n ← lift (arg_int a "delay" 5);
  let delay := Z.min n 30 in
  sleep_int delay;;
  mret (Jsonify
          (JObj [("message",
                   JStr ("Response delayed by " +:+ pretty delay +:+ " seconds"));
                 ("requested_delay", JInt delay);
                 ("actual_delay", JFloat elapsed);
                 ("start_time", JStr (start_time +:+ "Z"));
                 ("end_time", JStr (end_time +:+ "Z"))]) 200).

(** What the generator supplies for one item of [large_response]. *)
Record item_draws := {
  value : float;
  category : nat;
  tag_count : Z;
  created : string;
  updated : string;
  version : Z
}.

Definition large_item (draws : Z -> item_draws) (i : Z)
  : result (json float) :=
  category ← choice ["A"; "B"; "C"; "D"] (category (draws i));
  Ok (JObj [("id", JInt i);
            ("name", JStr ("Item " +:+ pretty i));
            ("description",
              JStr (Str.repeat_str
                      ("This is a description for item " +:+ pretty i +:+ " ")
                      10));
            ("value", JFloat (value (draws i)));
            ("category", JStr category);
            ("tags",
              JList ((fun j => JStr ("tag" +:+ pretty j))
                       <$> range (tag_count (draws i))));
            ("metadata",
              JObj [("created", JStr (created (draws i) +:+ "Z"));
                    ("updated", JStr (updated (draws i) +:+ "Z"));
                    ("version", JInt (version (draws i)))])]).

Definition large_response (a : args) (draws : Z -> item_draws)
  : result response :=
  n ← arg_int a "size" 1000;
  let size := Z.min n 10000 in
  items ← mapM (large_item draws) (range size);
  Ok (Jsonify
        (JObj [("total_items", JInt (Z.of_nat (length items)));
               ("requested_size", JInt size);
               ("items", JList items)]) 200).

(** [auth_header] is [request.headers.get("Authorization")]. *)
Definition auth_required (auth_header : option string) (now : string)
  : response :=
  match auth_header with
  | None | Some "" =>
      Jsonify (JObj [("error", JStr "Authentication required");
                     ("message", JStr "Missing Authorization header")]) 401
  | Some auth_header =>
      if negb (Str.startswith auth_header "Bearer ") then
        Jsonify (JObj [("error", JStr "Invalid authentication");
                       ("message",
                         JStr "Authorization must be Bearer token")]) 401
      else
        let token := Str.slice_from 7 auth_header in
        if negb (Str.contains "valid" (Str.py_lower token)) then
          Jsonify (JObj [("error", JStr "Invalid token");
                         ("message", JStr "Token validation failed")]) 401
        else
          Jsonify (JObj [("authenticated", JBool true);
                         ("user", JStr "test_user");
                         ("token_preview",
                           JStr (Str.slice_to 10 token +:+ "..."));
                         ("permissions", JList [JStr "read"; JStr "write"]);
                         ("timestamp", JStr (now +:+ "Z"))]) 200
  end.

(** [draw] is the value of [random.random()]. *)
Definition circuit_breaker (a : args) (draw : float) (now : string)
  : response :=
  let state := Str.py_lower (default "closed" (a !! "state")) in
  if String.eqb state "open" then
    Jsonify (JObj [("error", JStr "Service unavailable");
                   ("circuit_breaker_state", JStr "open");
                   ("message",
                     JStr "Circuit breaker is open, service temporarily unavailable");
                   ("retry_after", JInt 30)]) 503
  else if String.eqb state "half-open" then
    if (draw <? Float.half)%float then
      Jsonify (JObj [("success", JBool true);
                     ("circuit_breaker_state", JStr "half-open");
                     ("message", JStr "Request succeeded, circuit may close");
                     ("timestamp", JStr (now +:+ "Z"))]) 200
    else
      Jsonify (JObj [("error", JStr "Service failed");
                     ("circuit_breaker_state", JStr "half-open -> open");
                     ("message", JStr "Request failed, circuit reopened");
                     ("retry_after", JInt 30)]) 503
  else
    Jsonify (JObj [("success", JBool true);
                   ("circuit_breaker_state", JStr "closed");
                   ("message", JStr "Service operating normally");
                   ("timestamp", JStr (now +:+ "Z"))]) 200.

End SimulationRoutes.

(** ** The rest of routes/advanced/advanced_routes.py: pagination *)

Module AdvancedRoutes.

(** [None] when the condition fails. *)
Definition when {F} (b : bool) (j : json F) : json F := if b then j else JNull.

(** [value i] and [category i] are what [random.randint(1, 1000)] and
    the draw of [random.choice] give for the item of index [i];
    [base_url] is [request.base_url]. *)
Definition paginated_data (a : args) (base_url : string)
    (value : Z -> Z) (category : Z -> nat) (now : string) : result response :=
  p ← arg_int a "page" 1;
  let page := Z.max 1 p in
  pp ← arg_int a "per_page" 20;
  let per_page := Z.min (Z.max 1 pp) 100 in
  total_items ← arg_int a "total_items" 1000;
  let total_pages := (total_items + per_page - 1) / per_page in
  let start_idx := (page - 1) * per_page in
  let end_idx := Z.min (start_idx + per_page) total_items in
  items ← mapM (fun i =>
              c ← choice ["A"; "B"; "C"] (category i);
              Ok (JObj [("id", JInt (i + 1));
                        ("name", JStr ("Item " +:+ pretty (i + 1)));
                        ("value", JInt (value i));
                        ("category", JStr c)]))
           (range2 start_idx end_idx);
  let link := fun n : Z =>
    JStr (base_url +:+ "?page=" +:+ pretty n +:+ "&per_page=" +:+ pretty per_page) in
  let pagination :=
    JObj [("page", JInt page);
          ("per_page", JInt per_page);
          ("total_items", JInt total_items);
          ("total_pages", JInt total_pages);
          ("has_prev", JBool (1 <? page));
          ("has_next", JBool (page <? total_pages));
          ("prev_page", when (1 <? page) (JInt (page - 1)));
          ("next_page", when (page <? total_pages) (JInt (page + 1)));
          ("links",
            JObj [("first", link 1);
                  ("last", link total_pages);
                  ("prev", when (1 <? page) (link (page - 1)));
                  ("next", when (page <? total_pages) (link (page + 1)))])] in
  Ok (Jsonify
        (JObj [("items", JList items);
               ("pagination", pagination);
               ("timestamp", JStr (now +:+ "Z"))]) 200).

End AdvancedRoutes.

(** ** The rest of routes/advanced/streaming/realtime.py: what
    [notification_stream] turns its query into *)

Module RealtimeRoutes.

Definition notification_stream_params (a : args) : result (float * Z) :=
  x ← arg_float a "frequency" (Float.of_Z 2);
  let frequency := py_max Float.half x in
  n ← arg_int a "count" 10;
  let count := Z.min n 50 in
  Ok (frequency, count).

End RealtimeRoutes.

(** ** Reading a response *)

(** The integers under [key] in the dictionaries of the list [field] of
    a body, in order. *)
Definition ints_of (field key : string) (r : response) : list Z :=
  match body_of r ≫= Json.get field with
  | Some (JList l) =>
      l ≫= fun j => match Json.get key j with
                   | Some (JInt n) => [n]
                   | _ => []
                   end
  | _ => []
  end.

(** ** Request bodies: JSON values handled as Python objects

    [request.get_json()] gives the body as a Python value; a handler
    that treats it as a dictionary without looking raises where the
    value has no such method or operation. A dictionary is the list of
    its items, each key once. *)

Inductive fault :=
| Builtin (e : exn)
| TypeError
| AttributeError
| KeyError.

Inductive outcome (A : Type) :=
| Returns (a : A)
| Fails (f : fault).
Arguments Returns {A} a.
Arguments Fails {A} f.

#[global] Instance outcome_ret : MRet outcome := fun _ a => Returns a.
#[global] Instance outcome_bind : MBind outcome := fun _ _ k r =>
  match r with
  | Returns a => k a
  | Fails f => Fails f
  end.

#[global] Instance outcome_fmap : FMap outcome := fun _ _ f r =>
  match r with
  | Returns a => Returns (f a)
  | Fails e => Fails e
  end.

Definition of_result {A} (r : result A) : outcome A :=
  match r with
  | Ok a => Returns a
  | Raise e => Fails (Builtin e)
  end.

Module Dyn.

Abbreviation value := (json float).

(** [d.get(key, fallback)] *)
Definition get (d : value) (key : string) (fallback : value) : outcome value :=
  match d with
  | JObj kvs => Returns (default fallback (Json.assoc key kvs))
  | _ => Fails AttributeError
  end.

Definition is_str (s : string) (v : value) : bool :=
  match v with
  | JStr s' => String.eqb s' s
  | _ => false
  end.

(** [key in container] for a string [key]. *)
Definition contains (key : string) (container : value) : outcome bool :=
  match container with
  | JObj kvs => Returns (bool_decide (is_Some (Json.assoc key kvs)))
  | JList l => Returns (existsb (is_str key) l)
  | JStr s => Returns (Str.contains key s)
  | _ => Fails TypeError
  end.

(** [container[key]] for a string [key]. *)
Definition item (container : value) (key : string) : outcome value :=
  match container with
  | JObj kvs =>
      match Json.assoc key kvs with
      | Some v => Returns v
      | None => Fails KeyError
      end
  | _ => Fails TypeError
  end.

(** [len(v)] *)
Definition len (v : value) : outcome Z :=
  match v with
  | JStr s => Returns (Str.len s)
  | JList l => Returns (Z.of_nat (length l))
  | JObj kvs => Returns (Z.of_nat (length kvs))
  | _ => Fails TypeError
  end.

(** What [for x in v] goes through. *)
Definition iter (v : value) : outcome (list value) :=
  match v with
  | JList l => Returns l
  | JStr s => Returns ((fun c => JStr (String c "")) <$> Str.chars s)
  | JObj kvs => Returns ((fun kv => JStr kv.1) <$> kvs)
  | _ => Fails TypeError
  end.

(** The integer part of a finite float, towards zero. *)
Definition trunc (x : float) : Z :=
  match x with
  | S754_finite s m e =>
      let n := if 0 <=? e then Zpos m * 2 ^ e else Zpos m / 2 ^ (- e) in
      if s then - n else n
  | _ => 0
  end.

(** [int(v)] *)
Definition int (v : value) : outcome Z :=
  match v with
  | JInt n => Returns n
  | JBool b => Returns (if b then 1 else 0)
  | JFloat S754_nan => Fails (Builtin ValueError)
  | JFloat (S754_infinity _) => Fails (Builtin OverflowError)
  | JFloat x => Returns (trunc x)
  | JStr s => of_result (py_int s)
  | _ => Fails TypeError
  end.

(** [v.lower()] *)
Definition lower (v : value) : outcome string :=
  match v with
  | JStr s => Returns (Str.py_lower s)
  | _ => Fails AttributeError
  end.

End Dyn.

(** A handler over a body that also sleeps. *)
Definition act (A : Type) : Type := list event * outcome A.

#[global] Instance act_ret : MRet act := fun _ a => ([], Returns a).
#[global] Instance act_bind : MBind act := fun _ _ k m =>
  match m with
  | (t, Returns a) => let '(t', r) := k a in (t ++ t', r)
  | (t, Fails f) => (t, Fails f)
  end.

Definition act_of {A} (r : outcome A) : act A := ([], r).

Definition act_of_gen {A} (g : gen A) : act A := (g.1, of_result g.2).

(** [for x in l: acc = body(acc, x)] *)
Fixpoint fold_act {A B} (body : A -> B -> act A) (acc : A) (l : list B)
  : act A :=
  match l with
  | [] => mret acc
  | x :: l' => body acc x ≫= fun acc' => fold_act body acc' l'
  end.

Fixpoint fold_outcome {A B} (body : A -> B -> outcome A) (acc : A) (l : list B)
  : outcome A :=
  match l with
  | [] => mret acc
  | x :: l' => body acc x ≫= fun acc' => fold_outcome body acc' l'
  end.

(** ** The rest of routes/advanced/advanced_routes.py: handlers of a body *)

(** [sorted(l)] on strings, and [s[::-1]]. *)
Fixpoint insert_str (x : string) (l : list string) : list string :=
  match l with
  | [] => [x]
  | y :: l' => if String.leb x y then x :: l else y :: insert_str x l'
  end.

Definition sorted_str (l : list string) : list string := foldr insert_str [] l.

Definition reversed (s : string) : string := Str.text (rev (Str.chars s)).

(** [enumerate(l)] *)
Definition enumerate {A} (l : list A) : list (Z * A) :=
  imap (fun i x => (Z.of_nat i, x)) l.

Module Bodies.
Import Dyn.

(** What the generator and the clock supply for one operation. *)
Record op_draws := {
  processing_time : float;
  draw : float;
  new_id : Z;
  stamp : string
}.

(** The dictionary built for the operation of index [i]. *)
Definition operation_result (draws : Z -> op_draws) (i : Z)
    (op_type op_data : value) : value :=
  let success := (Float.tenth <? draw (draws i))%float in
  let result :=
    [("operation_index", JInt i);
     ("type", op_type);
     ("success", JBool success);
     ("processing_time", JFloat (processing_time (draws i)));
     ("timestamp", JStr (stamp (draws i) +:+ "Z"))] in
  JObj (if success then
          result ++ [("result", JObj [("id", JInt (new_id (draws i)));
                                      ("data", op_data)])]
        else result ++ [("error", JStr "Simulated operation failure")]).

(** The body of the loop of [bulk_operations]. *)
Definition bulk_operation (draws : Z -> op_draws) (results : list value)
    (indexed : Z * value) : act (list value) :=
  let '(i, operation) := indexed in
  op_type ← act_of (get operation "type" (JStr "unknown"));
  op_data ← act_of (get operation "data" (JObj []));
  act_of_gen (sleep (processing_time (draws i)));;
  mret (results ++ [operation_result draws i op_type op_data]).

Definition succeeded (r : value) : bool :=
  match Json.get "success" r with
  | Some (JBool b) => b
  | _ => false
  end.

(** What a result says of the operation of index [i]: its index, whether
    it succeeded, and a [result] or an [error] accordingly. *)
Definition reports (draws : Z -> op_draws) (i : Z) (r : value) : Prop :=
  Json.get "operation_index" r = Some (JInt i) /\
  succeeded r = (Float.tenth <? draw (draws i))%float /\
  (is_Some (Json.get "result" r) <-> succeeded r = true) /\
  (is_Some (Json.get "error" r) <-> succeeded r = false).

Definition bulk_operations (data : value) (draws : Z -> op_draws)
    (now : string) : act response :=
  operations ← act_of (get data "operations" (JList []));
  items ← act_of (iter operations);
  results ← fold_act (bulk_operation draws) [] (enumerate items);
  total_operations ← act_of (len operations);
  let successful_operations := Z.of_nat (length (filter succeeded results)) in
  let failed_operations := total_operations - successful_operations in
  mret (Jsonify
          (JObj [("summary",
                   JObj [("total_operations", JInt total_operations);
                         ("successful", JInt successful_operations);
                         ("failed", JInt failed_operations);
                         ("success_rate",
                           if 0 <? total_operations then
                             JFloat (Float.div (Float.of_Z successful_operations)
                                       (Float.of_Z total_operations))
                           else JInt 0)]);
                 ("results", JList results);
                 ("timestamp", JStr (now +:+ "Z"))]) 200).

Definition users : value :=
  JList [JObj [("id", JInt 1); ("name", JStr "Alice");
               ("email", JStr "alice@example.com")];
         JObj [("id", JInt 2); ("name", JStr "Bob");
               ("email", JStr "bob@example.com")];
         JObj [("id", JInt 3); ("name", JStr "Charlie");
               ("email", JStr "charlie@example.com")]].

Definition posts : value :=
  JList [JObj [("id", JInt 1); ("title", JStr "Hello World");
               ("content", JStr "First post")];
         JObj [("id", JInt 2); ("title", JStr "GraphQL Test");
               ("content", JStr "Testing GraphQL")]].

Definition graphql_simulator (data : value) (now : string) : outcome response :=
  query ← get data "query" (JStr "");
  variables ← get data "variables" (JObj []);
  lowered ← lower query;
  let response_data :=
    if Str.contains "users" lowered then JObj [("users", users)]
    else if Str.contains "posts" lowered then JObj [("posts", posts)]
    else JObj [("message", JStr "Query not recognized")] in
  Returns (Jsonify
             (JObj [("data", response_data);
                    ("extensions",
                      JObj [("query", query);
                            ("variables", variables);
                            ("timestamp", JStr (now +:+ "Z"))])]) 200).

(** [method] is [request.method]; [count] is the value of
    [random.randint(1, 10)], [new_id] that of
    [random.randint(1000, 9999)], and [stamp i] the clock reading for
    the item of index [i]. A view that falls off its end returns
    [None]. *)
Definition nested_resources (method : string) (parent_id : Z) (data : value)
    (count new_id : Z) (stamp : Z -> string) (now : string)
  : outcome (option response) :=
  if String.eqb method "GET" then
    let items :=
      (fun i =>
         JObj [("id", JInt (i + 1));
               ("parent_id", JInt parent_id);
               ("name", JStr ("Item " +:+ pretty (i + 1)));
               ("description",
                 JStr ("Description for item " +:+ pretty (i + 1)
                         +:+ " under parent " +:+ pretty parent_id));
               ("created_at", JStr (stamp i +:+ "Z"))])
        <$> range count in
    Returns (Some (Jsonify
                     (JObj [("parent_id", JInt parent_id);
                            ("items", JList items);
                            ("total_items", JInt (Z.of_nat (length items)));
                            ("timestamp", JStr (now +:+ "Z"))]) 200))
  else if String.eqb method "POST" then
    name ← get data "name" (JStr "New Item");
    description ← get data "description" (JStr "");
    Returns (Some (Jsonify
                     (JObj [("id", JInt new_id);
                            ("parent_id", JInt parent_id);
                            ("name", name);
                            ("description", description);
                            ("created_at", JStr (now +:+ "Z"))]) 201))
  else Returns None.

(** The checks of [complex_validation], each from the errors so far to
    the errors after it. *)
Definition check_required (data : value) (errors : list string)
    (field : string) : outcome (list string) :=
  present ← contains field data;
  Returns (if present : bool then errors
           else errors ++ ["Missing required field: " +:+ field]).

Definition missing (field : string) : string :=
  "Missing required field: " +:+ field.

Definition check_email (data : value) (errors : list string)
  : outcome (list string) :=
  present ← contains "email" data;
  if present : bool then
    email ← item data "email";
    has_at ← contains "@" email;
    bad ← (if negb has_at then Returns true
           else negb <$> contains "." email);
    Returns (if bad : bool then errors ++ ["Invalid email format"] else errors)
  else Returns errors.

Definition check_age (data : value) (errors : list string)
  : outcome (list string * list string) :=
  present ← contains "age" data;
  if present : bool then
    match item data "age" ≫= int with
    | Returns age =>
        if age <? 0 then Returns (errors ++ ["Age cannot be negative"], [])
        else if 150 <? age then Returns (errors, ["Age seems unusually high"])
        else Returns (errors, [])
    | Fails (Builtin ValueError) | Fails TypeError =>
        Returns (errors ++ ["Age must be a number"], [])
    | Fails f => Fails f
    end
  else Returns (errors, []).

Definition check_name (data : value) (errors : list string)
  : outcome (list string) :=
  present ← contains "name" data;
  if present : bool then
    name ← item data "name";
    n ← len name;
    Returns (if n <? 2 then errors ++ ["Name must be at least 2 characters"]
             else if 100 <? n then
               errors ++ ["Name cannot exceed 100 characters"]
             else errors)
  else Returns errors.

Definition strings (l : list string) : value := JList (JStr <$> l).

Definition complex_validation (data : value) (now : string)
  : outcome response :=
  errors ← fold_outcome (check_required data) [] ["name"; "email"; "age"];
  errors ← check_email data errors;
  '(errors, warnings) ← check_age data errors;
  errors ← check_name data errors;
  match errors : list string with
  | _ :: _ =>
      Returns (Jsonify
                 (JObj [("valid", JBool false);
                        ("errors", strings errors);
                        ("warnings", strings warnings);
                        ("timestamp", JStr (now +:+ "Z"))]) 422)
  | [] =>
      Returns (Jsonify
                 (JObj [("valid", JBool true);
                        ("warnings", strings warnings);
                        ("processed_data", data);
                        ("timestamp", JStr (now +:+ "Z"))]) 200)
  end.

(** The values that have no [len()] and take no [in]: null, the
    booleans and the numbers. *)
Definition scalar (v : value) : bool :=
  match v with
  | JNull | JBool _ | JInt _ | JFloat _ => true
  | _ => false
  end.

Definition infinite (v : value) : bool :=
  match v with
  | JFloat (S754_infinity _) => true
  | _ => false
  end.

(** Whether a dictionary has the field [key] with a value for which [p]
    holds. *)
Definition field_is (p : value -> bool) (key : string)
    (kvs : list (string * value)) : bool :=
  from_option p false (Json.assoc key kvs).

End Bodies.

(** ** The rest of routes/testing/simulation_routes.py and
    routes/testing/scenarios/stress_tests.py: handlers of a body *)

Module BodyTests.
Import Dyn.

Definition memory_test (data : value) (now : string) : outcome response :=
  operation ← get data "operation" (JStr "duplicate");
  n ← get data "size" (JInt 1000) ≫= int;
  let size := Z.min n 5000 in
  let test_data :=
    (fun i => Str.repeat_str ("test_string_" +:+ pretty i) 10) <$> range size in
  let result :=
    if is_str "duplicate" operation then test_data ++ test_data
    else if is_str "reverse" operation then reversed <$> test_data
    else if is_str "sort" operation then sorted_str test_data
    else if is_str "concatenate" operation then
      [Str.text (mjoin (Str.chars <$> test_data))]
    else test_data in
  Returns (Jsonify
             (JObj [("operation", operation);
                    ("input_size", JInt (Z.of_nat (length test_data)));
                    ("output_size", JInt (Z.of_nat (length result)));
                    ("memory_test_completed", JBool true);
                    ("timestamp", JStr (now +:+ "Z"))]) 200).

(** [start_time] and [end_time] are the two readings of [time.time()]. *)
Definition throughput_test (data : value) (start_time end_time : float)
    (now : string) : outcome response :=
  processed_items ←
    match data with
    | JObj kvs =>
        match Json.assoc "items" kvs with
        | Some items => (fun l => Z.of_nat (length l)) <$> iter items
        | None => Returns 0
        end
    | _ => Returns 0
    end;
  let processing_time := Float.sub end_time start_time in
  let throughput :=
    if (Float.zero <? processing_time)%float then
      JFloat (Float.div (Float.of_Z processed_items) processing_time)
    else JInt 0 in
  Returns (Jsonify
             (JObj [("items_processed", JInt processed_items);
                    ("processing_time", JFloat processing_time);
                    ("throughput_items_per_second", throughput);
                    ("timestamp", JStr (now +:+ "Z"))]) 200).

End BodyTests.

(** ** The rest of routes/testing/scenarios/stress_tests.py: the busy loop *)

(** [x == 0] on a float, and [n / x] for an integer [n] and a float [x],
    which raises when [x] is a zero. *)
Definition is_zero (x : float) : bool :=
  match x with
  | S754_zero _ => true
  | _ => false
  end.

Definition int_truediv (n : Z) (x : float) : result float :=
  if is_zero x then Raise ZeroDivisionError
  else Ok (Float.div (Float.of_Z n) x).

Module StressRoutes.

(** The loop [while time.time() < end_time] of [cpu_intensive]: [ticks]
    are the readings of the clock, one for each test of the condition.
    The loop has not ended while every reading is below [end_time]. *)
Fixpoint busy (end_time : float) (operations : Z) (ticks : list float)
  : option Z :=
  match ticks with
  | [] => None
  | t :: ticks' =>
      if (t <? end_time)%float then busy end_time (operations + 1000) ticks'
      else Some operations
  end.

(** [start_time] is the first reading of [time.time()], [ticks] those of
    the loop and [finish] the one after it. *)
Definition cpu_intensive (duration : Z) (start_time : float)
    (ticks : list float) (finish : float) (now : string)
  : option (result response) :=
  let duration := Z.min duration 10 in
  let end_time := Float.add start_time (Float.of_Z duration) in
  operations ← busy end_time 0 ticks;
  let actual_duration := Float.sub finish start_time in
  Some (ops_per_second ← int_truediv operations actual_duration;
        Ok (Jsonify
              (JObj [("requested_duration", JInt duration);
                     ("actual_duration", JFloat actual_duration);
                     ("operations_performed", JInt operations);
                     ("ops_per_second", JFloat ops_per_second);
                     ("timestamp", JStr (now +:+ "Z"))]) 200)).

End StressRoutes.

(** * Properties *)

(** ** Comparisons of floats *)

Section FloatFacts.
Local Open Scope float_scope.

Lemma ltb_leb a b : (a <? b) = true -> (a <=? b) = true.
Proof.
  unfold Float.ltb, Float.leb, SFltb, SFleb.
  by destruct (SFcompare a b) as [[]|].
Qed.

Lemma nonneg_not_negative d : (Float.zero <=? d) = true -> (d <? Float.zero) = false.
Proof. by destruct d as [[]|[]| |[] m e]. Qed.

(** The clamp of [random_failure] lands in [[0, 1]], whatever it is given. *)
Lemma clamp_unit_interval p :
  let c := py_max Float.zero (py_min Float.one p) in
  (Float.zero <=? c) = true /\ (c <=? Float.one) = true.
Proof.
  unfold py_max, py_min.
  destruct (p <? Float.one) eqn:Hp1.
  - destruct (Float.zero <? p) eqn:Hp0; auto using ltb_leb.
  - done.
Qed.
End FloatFacts.

(** ** /simulate/fail/{probability} *)

Section RandomFailure.
Import Simulation.
Local Open Scope float_scope.

(** C1. The failure probability is clamped into [[0, 1]]; for every draw
    [d] of [[0, 1)] the response is the 500 failure body exactly when
    [d] is below the clamped probability and the 200 success body
    otherwise; at probability 0.0 every draw succeeds and at 1.0 every
    draw fails. *)
Theorem random_failure_outcome (probability draw : float) (now : string) :
  (Float.zero <=? draw) = true -> (draw <? Float.one) = true ->
  let p := py_max Float.zero (py_min Float.one probability) in
  let r := random_failure probability draw now in
  ((Float.zero <=? p) = true /\ (p <=? Float.one) = true) /\
  ((draw <? p) = true ->
     status_of r = 500 /\
     (body_of r ≫= Json.get "error") = Some (JStr "Simulated failure") /\
     (body_of r ≫= Json.get "probability") = Some (JFloat p)) /\
  ((draw <? p) = false ->
     status_of r = 200 /\
     (body_of r ≫= Json.get "success") = Some (JBool true) /\
     (body_of r ≫= Json.get "error") = None) /\
  status_of (random_failure Float.zero draw now) = 200 /\
  status_of (random_failure Float.one draw now) = 500.
Proof.
  intros Hlo Hhi p r. split; [apply clamp_unit_interval|].
  subst r. unfold random_failure. fold p.
  split; [by intros -> | split; [by intros -> | split]].
  - change (py_max Float.zero (py_min Float.one Float.zero)) with Float.zero.
    by rewrite (nonneg_not_negative _ Hlo).
  - change (py_max Float.zero (py_min Float.one Float.one)) with Float.one.
    by rewrite Hhi.
Qed.

Lemma random_failure_outcome_witness :
  status_of (random_failure Float.half Float.tenth "2024-01-01T00:00:00") = 500.
Proof.
  pose proof (random_failure_outcome Float.half Float.tenth
                "2024-01-01T00:00:00" eq_refl eq_refl) as (_ & H & _).
  exact (proj1 (H eq_refl)).
Defined.
End RandomFailure.

(** ** Parsing of query parameters *)

Section Parsing.

Lemma py_int_raises s e : py_int s = Raise e -> e = ValueError.
Proof.
  unfold py_int, signed.
  repeat case_match; congruence.
Qed.

Context {A B : Type} (f : A -> result B).

Lemma mapM_Ok l ys :
  mapM f l = Ok ys -> Forall2 (fun x y => f x = Ok y) l ys.
Proof.
  revert ys. induction l as [|x l IH]; intros ys; cbn.
  - intros [= <-]. constructor.
  - destruct (f x) as [y|] eqn:Hx; cbn; [|done].
    destruct (mapM f l) as [k|]; cbn; [|done].
    intros [= <-]. constructor; auto.
Qed.

Lemma mapM_all_Ok l :
  (forall x, x ∈ l -> exists y, f x = Ok y) ->
  exists ys, mapM f l = Ok ys /\ length ys = length l.
Proof.
  induction l as [|x l IH]; intros Hl; cbn.
  - by exists [].
  - destruct (Hl x) as [y ->]; [left|]. cbn.
    destruct IH as (ys & -> & Hlen).
    { intros z Hz. apply Hl. by right. }
    exists (y :: ys). cbn. by rewrite Hlen.
Qed.



Lemma choice_elem {C} (l : list C) draw :
  l <> [] -> exists x, choice l draw = Ok x /\ x ∈ l.
Proof.
  intros Hl. unfold choice.
  destruct (l !! (draw mod length l)%nat) as [x|] eqn:Hx.
  - exists x. split; [done|]. by eapply list_elem_of_lookup_2.
  - apply lookup_ge_None in Hx.
    assert (length l <> 0%nat) by by destruct l.
    pose proof (Nat.mod_upper_bound draw (length l)). lia.
Qed.

End Parsing.

(** ** /simulate/random-status *)

Section RandomStatus.
Import Simulation.













(** A text with a first and a last character that are no blanks, as the
    sign and the digits of a numeral are. *)
Lemma ends_split (l : list ascii) :
  (2 <= length l)%nat -> exists first core last, l = first :: core ++ [last].
Proof.
  destruct l as [|first l]; [cbn; lia|].
  destruct (decide (l = [])) as [->|Hl]; [cbn; lia|].
  destruct (exists_last Hl) as (core & last & ->). eauto.
Qed.












End RandomStatus.

(** ** /simulate/rate-limit *)

Section RateLimit.
Import Simulation.

(** C9. With a limit of at least 1 the synthetic count is below the
    limit for every minute and every offset, so the response is the 200
    body with the remaining quota and never the 429 one; with a limit of
    0 the modulo raises. *)
Theorem rate_limit_never_exceeded (a : args) (limit current_minute offset : Z)
    (reset_time : string) :
  arg_int a "limit" 10 = Ok limit ->
  (1 <= limit ->
     let request_count := (current_minute + offset) mod limit in
     0 <= request_count < limit /\
     rate_limit_test a current_minute offset reset_time =
       Ok (Jsonify
             (JObj [("success", JBool true);
                    ("rate_limit", JInt limit);
                    ("current_count", JInt request_count);
                    ("remaining", JInt (limit - request_count));
                    ("reset_time", JStr (reset_time +:+ "Z"))]) 200)) /\
  (limit = 0 ->
     rate_limit_test a current_minute offset reset_time =
       Raise ZeroDivisionError).
Proof.
  intros Hlimit. unfold rate_limit_test. rewrite Hlimit. cbn.
  unfold py_mod. split.
  - intros Hpos.
    assert (0 <= (current_minute + offset) mod limit < limit) as Hrange
      by (apply Z.mod_pos_bound; lia).
    split; [done|].
    destruct (Z.eqb_spec limit 0); [lia|]. cbn.
    by destruct (Z.leb_spec limit ((current_minute + offset) mod limit)); [lia|].
  - by intros ->.
Qed.

Lemma rate_limit_never_exceeded_witness :
  rate_limit_test {["limit" := "5"]} 59 15 "2024-01-01T00:59:00" =
    Ok (Jsonify
          (JObj [("success", JBool true);
                 ("rate_limit", JInt 5);
                 ("current_count", JInt 4);
                 ("remaining", JInt 1);
                 ("reset_time", JStr "2024-01-01T00:59:00Z")]) 200).
Proof.
  refine (proj2 (proj1 (rate_limit_never_exceeded {["limit" := "5"]} 5 59 15
                          "2024-01-01T00:59:00" _) _)).
  - reflexivity.
  - lia.
Defined.
End RateLimit.

(** ** Paced loops: a frame per iteration, a pause between two frames *)

Section Paced.
Variables (n : Z) (pause : float) (frame : Z -> string).

Lemma paced_from (k : nat) (m : Z) :
  m + Z.of_nat k = n ->
  sleep_ok pause = true \/ (k <= 1)%nat ->
  for_each (seqZ m (Z.of_nat k)) (fun i =>
    yield (frame i);;
    if i <? n - 1 then sleep pause else mret tt)
  = (interleave (Sleep pause) (Yield ∘ frame <$> seqZ m (Z.of_nat k)), Ok tt).
Proof.
  revert m. induction k as [|k IH]; intros m Hn Hok; [done|].
  rewrite seqZ_cons by lia.
  replace (Z.pred (Z.of_nat (S k))) with (Z.of_nat k) by lia.
  cbn [for_each fmap list_fmap].
  destruct k as [|k].
  - replace (m <? n - 1) with false by lia. done.
  - assert (sleep_ok pause = true) as Hsleep by (destruct Hok; [done|lia]).
    rewrite IH by (auto; lia).
    replace (m <? n - 1) with true by lia.
    unfold sleep. rewrite Hsleep.
    rewrite (seqZ_cons _ (Z.of_nat (S k))) by lia. done.
Qed.

Lemma paced_completes :
  sleep_ok pause = true \/ n <= 1 ->
  paced n pause frame = (interleave (Sleep pause) (Yield ∘ frame <$> range n), Ok tt).
Proof.
  intros Hok. unfold paced, range.
  destruct (Z.le_gt_cases n 0) as [Hn|Hn].
  - by rewrite seqZ_nil.
  - pose proof (paced_from (Z.to_nat n) 0) as Hrun.
    rewrite Z2Nat.id in Hrun by lia.
    apply Hrun; [lia|]. destruct Hok; [by left|right; lia].
Qed.

(** A pause that [time.sleep] refuses ends the loop after its first
    frame. *)
Lemma paced_aborts :
  2 <= n -> sleep_ok pause = false ->
  paced n pause frame = ([Yield (frame 0)], Raise (sleep_refusal pause)).
Proof.
  intros Hn Hbad. unfold paced, range.
  rewrite seqZ_cons by lia. cbn [for_each].
  replace (0 <? n - 1) with true by lia.
  unfold sleep. by rewrite Hbad.
Qed.

Lemma paced_run :
  paced n pause frame =
    if (n <=? 1) || sleep_ok pause
    then (interleave (Sleep pause) (Yield ∘ frame <$> range n), Ok tt)
    else ([Yield (frame 0)], Raise (sleep_refusal pause)).
Proof.
  destruct (Z.leb_spec n 1); cbn.
  - apply paced_completes. by right.
  - destruct (sleep_ok pause) eqn:Hok.
    + apply paced_completes. by left.
    + apply paced_aborts; [lia|done].
Qed.
End Paced.

Lemma interleave_cons {A} (sep x : A) l :
  interleave sep (x :: l) = x :: (l ≫= fun y => [sep; y]).
Proof.
  revert x. induction l as [|y l IH]; intros x; [done|].
  change (interleave sep (x :: y :: l)) with (x :: sep :: interleave sep (y :: l)).
  by rewrite IH.
Qed.

Lemma yields_interleave pause (l : list string) :
  yields (interleave (Sleep pause) (Yield <$> l)) = l.
Proof.
  destruct l as [|x l]; [done|].
  rewrite fmap_cons, interleave_cons. unfold yields. cbn. f_equal.
  induction l as [|y l IH]; [done|]. cbn. by rewrite IH.
Qed.

Lemma sleeps_interleave pause (l : list string) :
  sleeps (interleave (Sleep pause) (Yield <$> l)) =
    replicate (length l - 1) pause.
Proof.
  destruct l as [|x l]; [done|].
  rewrite fmap_cons, interleave_cons. unfold sleeps. cbn.
  rewrite Nat.sub_0_r.
  induction l as [|y l IH]; [done|]. cbn. by rewrite IH.
Qed.

Lemma paced_sleeps n pause frame secs :
  secs ∈ sleeps (paced n pause frame).1 ->
  secs = pause /\ sleep_ok pause = true.
Proof.
  rewrite paced_run.
  destruct ((n <=? 1) || sleep_ok pause) eqn:Hrun; cbn [fst].
  - rewrite list_fmap_compose, sleeps_interleave, !length_fmap.
    unfold range. rewrite length_seqZ.
    intros [-> Hlen]%elem_of_replicate. split; [done|].
    apply orb_true_iff in Hrun as [Hn|Hok]; [lia|done].
  - unfold sleeps. cbn. by intros ?%elem_of_nil.
Qed.

Section FloatBounds.
Local Open Scope float_scope.

Lemma not_negative_nonneg d :
  Float.is_nan d = false -> (d <? Float.zero) = false ->
  (Float.zero <=? d) = true.
Proof. by destruct d as [[]|[]| |[] m e]. Qed.

Lemma sleep_ok_nonneg d : sleep_ok d = true -> (Float.zero <=? d) = true.
Proof. unfold sleep_ok. by intros [Hnonneg _]%andb_true_iff. Qed.

(** Among numbers, not being above a positive bound is being at most it. *)
Lemma not_above_finite (m : positive) (e : Z) d :
  Float.is_nan d = false -> (S754_finite false m e <? d) = false ->
  (d <=? S754_finite false m e) = true.
Proof.
  destruct d as [[]|[]| |[] m' e']; try done.
  unfold Float.ltb, Float.leb, SFltb, SFleb. cbn.
  rewrite (Z.compare_antisym e' e).
  destruct (e' ?= e); cbn; try done.
  pose proof (Pos.compare_cont_antisym m' m Eq) as Hanti. cbn in Hanti.
  rewrite <- Hanti. by destruct (Pos.compare_cont Eq m' m).
Qed.

Lemma not_above_five d :
  Float.is_nan d = false -> (Float.five <? d) = false ->
  (d <=? Float.five) = true.
Proof. apply not_above_finite. Qed.

Lemma py_min_five x :
  (Float.five <? py_min x Float.five) = false.
Proof.
  unfold py_min. by destruct (Float.five <? x) eqn:Hx.
Qed.
End FloatBounds.

(** ** /advanced/streaming *)

Section StreamingResponse.
Import Advanced.

(** C2. The stream of a request whose chunk count is [chunks] and whose
    delay is [delay]: one newline-terminated object per index 1..chunks,
    in order, each with the total, and a sleep of [delay] between two
    consecutive objects and none after the last, as long as [time.sleep]
    accepts [delay]; a delay that it refuses (a negative one, which the
    handler does not exclude) ends the stream after the first object,
    with what [time.sleep] raises for it. *)
Theorem streaming_response_stream (a : args) (utcnow : Z -> string)
    (chunks : Z) (delay : float) :
  streaming_params a = Ok (chunks, delay) ->
  let line := fun i => Json.dumps (chunk_data utcnow chunks i) +:+ nl in
  let lines := line <$> range chunks in
  let paced_trace := interleave (Sleep delay) (Yield <$> lines) in
  streaming_response a utcnow =
    Ok (Streaming "application/json" []
          (if (chunks <=? 1) || sleep_ok delay
           then (paced_trace, Ok tt)
           else ([Yield (line 0)], Raise (sleep_refusal delay)))) /\
  length lines = Z.to_nat chunks /\
  (forall i, 0 <= i < chunks ->
     lines !! Z.to_nat i = Some (line i) /\
     Json.get "chunk" (chunk_data utcnow chunks i) = Some (JInt (i + 1)) /\
     Json.get "total_chunks" (chunk_data utcnow chunks i) = Some (JInt chunks)) /\
  yields paced_trace = lines /\
  sleeps paced_trace = replicate (Z.to_nat (chunks - 1)) delay.
Proof.
  intros Hparams line lines paced_trace.
  assert (length lines = Z.to_nat chunks) as Hlen.
  { unfold lines, range. by rewrite length_fmap, length_seqZ. }
  repeat split.
  - unfold streaming_response. rewrite Hparams. cbn. do 2 f_equal.
    change (generate utcnow chunks delay) with (paced chunks delay line).
    rewrite paced_run. unfold paced_trace, lines.
    by rewrite list_fmap_compose.
  - done.
  - unfold lines, range. rewrite list_lookup_fmap, lookup_seqZ_lt by lia.
    cbn. do 2 f_equal. lia.
  - apply yields_interleave.
  - unfold paced_trace. rewrite sleeps_interleave, Hlen. f_equal. lia.
Qed.

Lemma streaming_response_stream_witness :
  let utcnow := fun _ : Z => "2024-01-01T00:00:00" in
  streaming_response {["chunks" := "2"; "delay" := "-1"]} utcnow =
    Ok (Streaming "application/json" []
          ([Yield (Json.dumps (chunk_data utcnow 2 0) +:+ nl)],
           Raise ValueError)).
Proof.
  intros utcnow.
  exact (proj1 (streaming_response_stream
                  {["chunks" := "2"; "delay" := "-1"]} utcnow
                  2 (S754_finite true 4503599627370496 (-52)) eq_refl)).
Defined.
End StreamingResponse.

(** ** /advanced/sse *)

Section ServerSentEvents.
Import Advanced.

Lemma data_frame_not_complete utcnow randint events i :
  data_frame utcnow randint events i <> complete_frame.
Proof. unfold data_frame, complete_frame. cbn [String.app]. discriminate. Qed.

(** C5. The stream of a request whose event count is [events] and whose
    interval is [interval]: one data frame per index, then the single
    [event: complete] frame, as long as [time.sleep] accepts [interval];
    an interval that it refuses (a negative one, which the handler does
    not exclude) ends the stream after the first data frame, before any
    completion frame, with what [time.sleep] raises for it. *)
Theorem server_sent_events_stream (a : args) (utcnow : Z -> string)
    (randint : Z -> Z) (events : Z) (interval : float) :
  sse_params a = Ok (events, interval) ->
  let frames := data_frame utcnow randint events <$> range events in
  let paced_trace := interleave (Sleep interval) (Yield <$> frames) in
  server_sent_events a utcnow randint =
    Ok (Streaming "text/event-stream"
          [("Cache-Control", "no-cache"); ("Connection", "keep-alive")]
          (if (events <=? 1) || sleep_ok interval
           then (paced_trace ++ [Yield complete_frame], Ok tt)
           else ([Yield (data_frame utcnow randint events 0)],
                 Raise (sleep_refusal interval)))) /\
  length frames = Z.to_nat events /\
  Forall (fun f => f <> complete_frame) frames /\
  yields (paced_trace ++ [Yield complete_frame]) = frames ++ [complete_frame].
Proof.
  intros Hparams frames paced_trace. repeat split.
  - unfold server_sent_events. rewrite Hparams. cbn. do 2 f_equal.
    unfold event_stream.
    change (for_each _ _)
      with (paced events interval (data_frame utcnow randint events)).
    rewrite paced_run. unfold paced_trace, frames.
    rewrite list_fmap_compose.
    by destruct ((events <=? 1) || sleep_ok interval).
  - unfold frames, range. by rewrite length_fmap, length_seqZ.
  - apply Forall_fmap, Forall_forall. intros i _.
    apply data_frame_not_complete.
  - unfold yields. rewrite bind_app. fold (yields paced_trace).
    unfold paced_trace. by rewrite yields_interleave.
Qed.

Lemma server_sent_events_stream_witness :
  let utcnow := fun _ : Z => "2024-01-01T00:00:00" in
  let randint := fun _ : Z => 42 in
  server_sent_events {["events" := "2"; "interval" := "-1"]} utcnow randint =
    Ok (Streaming "text/event-stream"
          [("Cache-Control", "no-cache"); ("Connection", "keep-alive")]
          ([Yield (data_frame utcnow randint 2 0)], Raise ValueError)).
Proof.
  intros utcnow randint.
  exact (proj1 (server_sent_events_stream
                  {["events" := "2"; "interval" := "-1"]} utcnow randint
                  2 (S754_finite true 4503599627370496 (-52)) eq_refl)).
Defined.
End ServerSentEvents.

(** ** Unparsable numbers *)

Section NonNumeric.
Import Advanced Simulation.

(** C3. A value of [chunks] or of [limit] that [int()] rejects makes the
    handler raise [ValueError]: no default is substituted and no error
    response is built. *)
Theorem non_numeric_parameter_raises (a : args) (text : string)
    (utcnow : Z -> string) (current_minute offset : Z) (reset_time : string) :
  py_int text = Raise ValueError ->
  (a !! "chunks" = Some text ->
     streaming_response a utcnow = Raise ValueError) /\
  (a !! "limit" = Some text ->
     rate_limit_test a current_minute offset reset_time = Raise ValueError).
Proof.
  intros Htext. split; intros Ha.
  - unfold streaming_response, streaming_params, arg_int.
    by rewrite Ha, Htext.
  - unfold rate_limit_test, arg_int. by rewrite Ha, Htext.
Qed.

Lemma non_numeric_parameter_raises_witness :
  streaming_response {["chunks" := "abc"]} (fun _ => "2024-01-01T00:00:00")
    = Raise ValueError /\
  rate_limit_test {["limit" := "abc"]} 30 7 "2024-01-01T00:30:00"
    = Raise ValueError.
Proof.
  split.
  - apply (non_numeric_parameter_raises {["chunks" := "abc"]} "abc"
             (fun _ => "2024-01-01T00:00:00") 0 0 "");
      reflexivity.
  - apply (non_numeric_parameter_raises {["limit" := "abc"]} "abc"
             (fun _ => "") 30 7 "2024-01-01T00:30:00");
      reflexivity.
Defined.
End NonNumeric.

(** ** Bounds on counts and durations *)

Section Clamps.
Import Advanced Realtime.
Local Open Scope float_scope.

(** C4, as the specification has it, on the chunk count and the delay of
    [/advanced/streaming]: refuted by [chunks=0&delay=-1]. *)
Lemma streaming_params_below_range :
  exists chunks delay,
    streaming_params {["chunks" := "0"; "delay" := "-1"]} = Ok (chunks, delay) /\
    ~ (1 <= chunks <= 100)%Z /\
    (Float.zero <=? delay) = false.
Proof.
  exists 0%Z, (S754_finite true 4503599627370496 (-52)).
  split; [reflexivity|]. split; [lia|reflexivity].
Qed.

Lemma streaming_params_Ok a chunks delay :
  streaming_params a = Ok (chunks, delay) ->
  exists n x, chunks = Z.min n 100 /\ delay = py_min x Float.five.
Proof.
  unfold streaming_params.
  destruct (arg_int a "chunks" 10) as [n|]; [|done].
  destruct (arg_float a "delay" Float.half) as [x|]; [|done].
  cbn. intros [= <- <-]. by exists n, x.
Qed.

Lemma sse_params_Ok a events interval :
  sse_params a = Ok (events, interval) ->
  exists n x, events = Z.min n 50 /\ interval = py_min x Float.five.
Proof.
  unfold sse_params.
  destruct (arg_int a "events" 10) as [n|]; [|done].
  destruct (arg_float a "interval" Float.one) as [x|]; [|done].
  cbn. intros [= <- <-]. by exists n, x.
Qed.

(** C4, amended. Every count and duration is capped from above: the
    chunk count is at most 100 and the delay never above 5.0, the event
    count is at most 50, the feed lasts at most 120 seconds and the
    status stream at most 300; and every sleep that the chunked stream
    performs lasts between 0 and 5 seconds. *)
Theorem counts_and_durations_capped (a : args) :
  (forall chunks delay,
     streaming_params a = Ok (chunks, delay) ->
     (chunks <= 100)%Z /\ (Float.five <? delay) = false /\
     forall utcnow secs,
       secs ∈ sleeps (generate utcnow chunks delay).1 ->
       (Float.zero <=? secs) = true /\ (secs <=? Float.five) = true) /\
  (forall events interval,
     sse_params a = Ok (events, interval) ->
     (events <= 50)%Z /\ (Float.five <? interval) = false) /\
  (forall feed_type duration,
     live_data_feed_params a = Ok (feed_type, duration) ->
     (duration <= 120)%Z) /\
  (forall interval duration,
     system_status_stream_params a = Ok (interval, duration) ->
     (duration <= 300)%Z).
Proof.
  split; [|split; [|split]].
  - intros chunks delay (n & x & -> & ->)%streaming_params_Ok.
    split; [lia|]. split; [apply py_min_five|].
    intros utcnow secs Hsecs.
    apply (paced_sleeps (Z.min n 100) (py_min x Float.five)) in Hsecs
      as [-> Hok].
    apply sleep_ok_nonneg in Hok.
    split; [done|].
    apply not_above_five; [|apply py_min_five].
    by destruct (py_min x Float.five).
  - intros events interval (n & x & -> & ->)%sse_params_Ok.
    split; [lia|apply py_min_five].
  - intros feed_type duration. unfold live_data_feed_params.
    destruct (arg_int a "duration" 30) as [n|]; [|done].
    cbn. intros [= _ <-]. lia.
  - intros interval duration. unfold system_status_stream_params.
    destruct (arg_float a "interval" (Float.of_Z 3)) as [x|]; [|done]. cbn.
    destruct (arg_int a "duration" 60) as [n|]; [|done].
    cbn. intros [= _ <-]. lia.
Qed.

Lemma counts_and_durations_capped_witness :
  (1000 `min` 100 <= 100)%Z /\
  live_data_feed_params {["duration" := "100000"]} = Ok ("metrics", 120%Z).
Proof.
  split.
  - refine (proj1 (proj1 (counts_and_durations_capped
                            {["chunks" := "1000"]}) _ Float.half _)).
    reflexivity.
  - reflexivity.
Defined.
End Clamps.

(** ** /stress/cascade/{depth} *)

Section Cascade.
Import Stress.

Lemma reverse_seqZ_succ (k : nat) :
  reverse (seqZ 0 (Z.of_nat (S k) + 1)) =
    Z.of_nat (S k) :: reverse (seqZ 0 (Z.of_nat k + 1)).
Proof.
  replace (Z.of_nat (S k) + 1) with (Z.of_nat (S (S k))) by lia.
  rewrite seqZ_S, reverse_snoc.
  replace (Z.of_nat k + 1) with (Z.of_nat (S k)) by lia.
  done.
Qed.

(** The recursion from level [k]: [k] sleeps, levels [k] down to 0, the
    base case innermost. *)
Lemma cascade_function_trace level_time (k : nat) :
  exists trace,
    cascade_function level_time (Z.of_nat k) =
      (replicate k (Sleep Float.tenth), Ok trace) /\
    levels trace = reverse (seqZ 0 (Z.of_nat k + 1)) /\
    innermost trace = base_case /\
    (k = 0%nat -> trace = base_case).
Proof.
  induction k as [|k (child & Hrun & Hlevels & Hinner & _)].
  - exists base_case. by simp cascade_function.
  - simp cascade_function.
    destruct (decide (Z.of_nat (S k) ≤ 0)) as [|Hk]; [lia|]. cbn.
    replace (Z.of_nat (S k) - 1) with (Z.of_nat k) by lia.
    rewrite Hrun. cbn. rewrite app_nil_r.
    eexists. split; [reflexivity|]. split; [|split; [done|done]].
    cbn. rewrite Hlevels. by rewrite reverse_seqZ_succ.
Qed.

(** C6. The depth is clamped to 10 and the recursion ends at the base
    case: the trace has the levels [d], ..., 0 for the clamped depth
    [d], hence [d + 1] of them, after [d] sleeps; a depth of 15 gives 11
    levels and a depth of 0 the base case alone. The route
    [<int:depth>] passes no negative depth. *)
Theorem cascade_requests_trace (depth : Z) (level_time : Z -> string)
    (start_time end_time : float) (now : string) :
  0 <= depth ->
  let d := Z.min depth 10 in
  exists trace,
    cascade_requests depth level_time start_time end_time now =
      (replicate (Z.to_nat d) (Sleep Float.tenth),
       Ok (Jsonify
             (JObj [("requested_depth", JInt d);
                    ("total_processing_time",
                      JFloat (Float.sub end_time start_time));
                    ("cascade_result", trace);
                    ("timestamp", JStr (now +:+ "Z"))]) 200)) /\
    d <= 10 /\
    levels trace = reverse (seqZ 0 (d + 1)) /\
    length (levels trace) = Z.to_nat (d + 1) /\
    innermost trace = base_case /\
    (depth = 15 -> length (levels trace) = 11%nat) /\
    (depth = 0 -> trace = base_case).
Proof.
  intros Hdepth d.
  destruct (cascade_function_trace level_time (Z.to_nat d))
    as (trace & Hrun & Hlevels & Hinner & Hbase).
  rewrite Z2Nat.id in Hrun, Hlevels by lia.
  exists trace. unfold cascade_requests. fold d. rewrite Hrun. cbn.
  rewrite app_nil_r.
  assert (length (levels trace) = Z.to_nat (d + 1)) as Hlen
    by by rewrite Hlevels, length_reverse, length_seqZ.
  repeat split; try done.
  - lia.
  - intros ->. by rewrite Hlen.
  - intros ->. by apply Hbase.
Qed.

Lemma cascade_requests_trace_witness :
  exists trace,
    (cascade_requests 15 (fun _ => "2024-01-01T00:00:00")
       Float.zero Float.one "2024-01-01T00:00:01").2 =
      Ok (Jsonify
            (JObj [("requested_depth", JInt 10);
                   ("total_processing_time",
                     JFloat (Float.sub Float.one Float.zero));
                   ("cascade_result", trace);
                   ("timestamp", JStr "2024-01-01T00:00:01Z")]) 200) /\
    levels trace = [10; 9; 8; 7; 6; 5; 4; 3; 2; 1; 0].
Proof.
  destruct (cascade_requests_trace 15 (fun _ => "2024-01-01T00:00:00")
              Float.zero Float.one "2024-01-01T00:00:01")
    as (trace & Hrun & _ & Hlevels & _); [lia|].
  exists trace. split; [by rewrite Hrun|exact Hlevels].
Defined.
End Cascade.

(** ** /stress/connections/{count} *)

Section Sorted.
Context {A : Type} (key : A -> Z).

Lemma insert_by_fmap {B} (f : B -> A) x l :
  insert_by key (f x) (f <$> l) = f <$> insert_by (key ∘ f) x l.
Proof.
  induction l as [|y l IH]; [done|]. cbn.
  destruct (key (f x) <=? key (f y)); [done|]. cbn. by rewrite IH.
Qed.

Lemma sorted_fmap {B} (f : B -> A) l :
  sorted key (f <$> l) = f <$> sorted (key ∘ f) l.
Proof.
  induction l as [|x l IH]; [done|]. cbn.
  unfold sorted in IH. by rewrite IH, insert_by_fmap.
Qed.

Lemma insert_by_ext (key' : A -> Z) x l :
  (forall y, key y = key' y) -> insert_by key x l = insert_by key' x l.
Proof.
  intros Hkey. induction l as [|y l IH]; [done|]. cbn.
  by rewrite !Hkey, IH.
Qed.

Lemma sorted_ext (key' : A -> Z) l :
  (forall y, key y = key' y) -> sorted key l = sorted key' l.
Proof.
  intros Hkey. induction l as [|x l IH]; [done|]. cbn.
  unfold sorted in IH. rewrite IH. by apply insert_by_ext.
Qed.

Lemma insert_by_Permutation x l : insert_by key x l ≡ₚ x :: l.
Proof.
  induction l as [|y l IH]; [done|]. cbn.
  destruct (key x <=? key y); [done|].
  rewrite IH. apply Permutation_swap.
Qed.

Lemma sorted_Permutation l : sorted key l ≡ₚ l.
Proof.
  induction l as [|x l IH]; [done|]. cbn.
  rewrite insert_by_Permutation. unfold sorted in IH. by rewrite IH.
Qed.

Lemma insert_by_Sorted x l :
  Sorted (fun a b => key a <= key b) l ->
  Sorted (fun a b => key a <= key b) (insert_by key x l).
Proof.
  induction 1 as [|y l Hl IH Hhd]; cbn.
  - by repeat constructor.
  - destruct (Z.leb_spec (key x) (key y)).
    + by repeat constructor.
    + constructor; [done|].
      destruct Hhd as [|z l Hz]; cbn.
      * constructor. lia.
      * destruct (key x <=? key z); constructor; lia.
Qed.

Lemma sorted_Sorted l : Sorted (fun a b => key a <= key b) (sorted key l).
Proof.
  induction l as [|x l IH]; [constructor|]. by apply insert_by_Sorted.
Qed.
End Sorted.

Lemma Sorted_seqZ m n : Sorted Z.le (seqZ m n).
Proof.
  destruct (Z.le_gt_cases n 0) as [Hn|Hn].
  { rewrite seqZ_nil by done. constructor. }
  rewrite <- (Z2Nat.id n) by lia. clear Hn.
  generalize (Z.to_nat n) as k. clear n. intros k. revert m.
  induction k as [|k IH]; intros m; [constructor|].
  rewrite seqZ_cons by lia.
  replace (Z.pred (Z.of_nat (S k))) with (Z.of_nat k) by lia.
  constructor; [apply IH|].
  destruct k as [|k]; [constructor|].
  rewrite seqZ_cons by lia. constructor. lia.
Qed.

(** Sorting the ids in any order of completion gives them in order. *)
Lemma sorted_range (count : Z) (finished : list Z) :
  finished ≡ₚ range count -> sorted id finished = range count.
Proof.
  intros Hperm.
  apply (Sorted_unique Z.le).
  - apply (sorted_Sorted id).
  - apply Sorted_seqZ.
  - by rewrite sorted_Permutation.
Qed.

Section Connections.
Import Stress.

Lemma sorted_results clock count finished :
  finished ≡ₚ range count ->
  sorted connection_id (simulate_connection clock <$> finished) =
    simulate_connection clock <$> range count.
Proof.
  intros Hperm. rewrite sorted_fmap.
  rewrite (sorted_ext _ id) by done.
  by rewrite (sorted_range count).
Qed.

(** With a connection or more the average is defined and the handler
    returns, its results in the order of the ids. *)
Lemma connection_simulation_returns (count : Z) (finished : list Z)
    (clock : Z -> reading) (now : string) :
  1 <= count ->
  finished ≡ₚ range (Z.min count 50) ->
  exists average_duration,
    connection_simulation count finished clock now =
      Ok (Jsonify
            (JObj [("simulated_connections", JInt (Z.min count 50));
                   ("results",
                     JList (connection_json <$>
                              (simulate_connection clock <$>
                                 range (Z.min count 50))));
                   ("average_duration", JFloat average_duration);
                   ("timestamp", JStr (now +:+ "Z"))]) 200).
Proof.
  intros Hcount Hperm.
  unfold connection_simulation. cbv zeta.
  rewrite (sorted_results clock (Z.min count 50)) by done.
  rewrite length_fmap, (Permutation_length Hperm).
  replace (Z.of_nat (length (range (Z.min count 50)))) with (Z.min count 50)
    by (unfold range; rewrite length_seqZ; lia).
  unfold py_truediv.
  destruct (Z.eqb_spec (Z.min count 50) 0) as [|_]; [lia|]. cbn.
  eexists. reflexivity.
Qed.



(** C10. With no connection the list of results is empty and the average
    divides by its length, 0: the handler raises; with one connection or
    more it returns its response. *)
Theorem connection_simulation_total (count : Z) (finished : list Z)
    (clock : Z -> reading) (now : string) :
  finished ≡ₚ range (Z.min count 50) ->
  (count = 0 ->
     finished = [] /\
     connection_simulation count finished clock now = Raise ZeroDivisionError) /\
  (1 <= count ->
     exists body, connection_simulation count finished clock now =
                    Ok (Jsonify body 200)).
Proof.
  intros Hperm. split.
  - intros ->. apply Permutation_nil_r in Hperm as ->. done.
  - intros Hcount.
    destruct (connection_simulation_returns count finished clock now)
      as (average & Hrun); [done..|].
    eexists. exact Hrun.
Qed.

Lemma connection_simulation_total_witness :
  connection_simulation 0 []
    (fun _ => {| start_time := Float.zero; end_time := Float.one;
                 utcnow := "2024-01-01T00:00:00" |})
    "2024-01-01T00:00:01" = Raise ZeroDivisionError.
Proof.
  refine (proj2 (proj1 (connection_simulation_total 0 [] _ _ _) _));
    reflexivity.
Defined.
End Connections.

(** * Further properties *)

(** ** Strings *)

Section Strings.
Import Str.

Lemma chars_app s1 s2 : chars (s1 +:+ s2) = chars s1 ++ chars s2.
Proof.
  unfold chars. induction s1 as [|c s1 IH]; [done|].
  change (c :: list_ascii_of_string (s1 +:+ s2) =
          c :: (list_ascii_of_string s1 ++ list_ascii_of_string s2)).
  by rewrite IH.
Qed.

Lemma chars_text l : chars (text l) = l.
Proof. apply list_ascii_of_string_of_list_ascii. Qed.

Lemma text_chars s : text (chars s) = s.
Proof. apply string_of_list_ascii_of_string. Qed.

Lemma starts_spec p l : starts p l = true <-> exists r, l = p ++ r.
Proof.
  revert l. induction p as [|a p IH]; intros l; cbn.
  - split; [by exists l|done].
  - destruct l as [|b l]; [split; [done|by intros [r [=]]]|].
    rewrite andb_true_iff, IH. split.
    + intros [->%Ascii.eqb_eq [r ->]]. by exists r.
    + intros [r [= -> ->]]. split; [apply Ascii.eqb_refl|by exists r].
Qed.

Lemma startswith_spec s p :
  startswith s p = true <-> exists rest, s = p +:+ rest.
Proof.
  unfold startswith. rewrite starts_spec. split.
  - intros [r Hr]. exists (text r).
    rewrite <- (text_chars s), Hr, <- (text_chars (p +:+ text r)).
    by rewrite chars_app, chars_text.
  - intros [rest ->]. exists (chars rest). apply chars_app.
Qed.

Lemma slice_from_app p rest :
  slice_from (length (chars p)) (p +:+ rest) = rest.
Proof.
  unfold slice_from. by rewrite chars_app, drop_app_length, text_chars.
Qed.

Lemma length_slice_to n s : (length (chars (slice_to n s)) <= n)%nat.
Proof. unfold slice_to. rewrite chars_text, length_take. lia. Qed.
End Strings.

(** ** /stress/cpu/<duration> *)

Section CpuIntensive.
Import StressRoutes.

Lemma busy_ends end_time operations before t after :
  Forall (fun t' => (t' <? end_time)%float = true) before ->
  (t <? end_time)%float = false ->
  busy end_time operations (before ++ t :: after) =
    Some (operations + 1000 * Z.of_nat (length before)).
Proof.
  intros Hbefore Ht. revert operations.
  induction Hbefore as [|t' before Ht' _ IH]; intros operations; cbn [busy app].
  - rewrite Ht. f_equal. cbn. lia.
  - rewrite Ht', IH. f_equal. cbn [length]. lia.
Qed.

Lemma sub_diag s m e :
  Float.sub (S754_finite s m e) (S754_finite s m e) = S754_zero false.
Proof.
  unfold Float.sub, SFsub. cbv zeta. rewrite Z.sub_diag. reflexivity.
Qed.

(** X22. /stress/cpu/<duration> runs for at most 10 requested seconds
    and counts 1000 operations for every reading of the clock that is
    below the end time, up to the first that is not. It then divides
    the count by the time elapsed with no guard: when that is zero, as
    it is when the last reading of the clock equals the first, the
    handler raises ZeroDivisionError; otherwise it returns status 200
    with the count and the rate. *)
Theorem cpu_intensive_outcome duration start_time before t after finish now :
  let requested := Z.min duration 10 in
  let end_time := Float.add start_time (Float.of_Z requested) in
  let operations := 1000 * Z.of_nat (length before) in
  let actual_duration := Float.sub finish start_time in
  let run :=
    cpu_intensive duration start_time (before ++ t :: after) finish now in
  Forall (fun t' => (t' <? end_time)%float = true) before ->
  (t <? end_time)%float = false ->
  requested <= 10 /\
  (if is_zero actual_duration then run = Some (Raise ZeroDivisionError)
   else exists body,
          run = Some (Ok (Jsonify body 200)) /\
          Json.get "requested_duration" body = Some (JInt requested) /\
          Json.get "operations_performed" body = Some (JInt operations) /\
          Json.get "ops_per_second" body =
            Some (JFloat (Float.div (Float.of_Z operations) actual_duration))) /\
  (forall s m e,
     start_time = S754_finite s m e -> finish = start_time ->
     run = Some (Raise ZeroDivisionError)).
Proof.
  intros requested end_time operations actual_duration run Hbefore Ht.
  split; [lia|].
  assert (run =
            Some (ops_per_second ← int_truediv operations actual_duration;
                  Ok (Jsonify
                        (JObj [("requested_duration", JInt requested);
                               ("actual_duration", JFloat actual_duration);
                               ("operations_performed", JInt operations);
                               ("ops_per_second", JFloat ops_per_second);
                               ("timestamp", JStr (now +:+ "Z"))]) 200)))
    as Hrun.
  { unfold run, cpu_intensive. fold requested. fold end_time.
    by rewrite (busy_ends _ _ _ _ _ Hbefore Ht). }
  split.
  - rewrite Hrun. unfold int_truediv.
    destruct (is_zero actual_duration); [done|].
    eexists. split; [reflexivity|]. done.
  - intros s m e -> ->. rewrite Hrun. unfold int_truediv, actual_duration.
    by rewrite sub_diag.
Qed.

Lemma cpu_intensive_outcome_witness :
  cpu_intensive 0 Float.one [Float.one] Float.one "2024-01-01T00:00:00" =
    Some (Raise ZeroDivisionError).
Proof.
  refine (proj2 (proj2 (cpu_intensive_outcome 0 Float.one [] Float.one []
                          Float.one "2024-01-01T00:00:00" _ _))
            false 4503599627370496%positive (-52) eq_refl eq_refl).
  - constructor.
  - vm_compute. reflexivity.
Defined.
End CpuIntensive.

(** ** /simulate/slow *)

Section SlowResponse.
Import SimulationRoutes.

(** X1. The handler never sleeps for more than 30 seconds: a delay that
    is not negative is clamped to at most 30, slept for once and
    reported; a negative delay is passed to [time.sleep], which raises
    before anything is slept, [ValueError] down to -9223372036 seconds
    and [OverflowError] below, where the nanoseconds no longer fit in 64
    bits. *)
Theorem slow_response_delay (a : args) (n : Z) (elapsed : float)
    (start_time end_time : string) :
  arg_int a "delay" 5 = Ok n ->
  let delay := Z.min n 30 in
  delay <= 30 /\
  (0 <= n ->
     exists body,
       slow_response a elapsed start_time end_time =
         ([Sleep (Float.of_Z delay)], Ok (Jsonify body 200)) /\
       Json.get "requested_delay" body = Some (JInt delay) /\
       Json.get "actual_delay" body = Some (JFloat elapsed)) /\
  (n < 0 ->
     slow_response a elapsed start_time end_time =
       ([], Raise (if n <? -9223372036 then OverflowError else ValueError))).
Proof.
  intros Hn delay. split; [lia|].
  unfold slow_response, lift. rewrite Hn. cbn [mbind gen_bind]. fold delay.
  unfold sleep_int. split; intros Hsign.
  - assert ((delay <? - max_seconds) || (max_seconds <? delay) = false) as ->
      by (unfold max_seconds; lia).
    assert ((delay <? 0) = false) as -> by lia.
    cbn. eexists. by repeat split.
  - assert (delay = n) as -> by lia.
    destruct (Z.ltb_spec n (-9223372036)) as [Hlow|Hlow].
    + by assert ((n <? - max_seconds) || (max_seconds <? n) = true) as ->
        by (unfold max_seconds; lia).
    + assert ((n <? - max_seconds) || (max_seconds <? n) = false) as ->
        by (unfold max_seconds; lia).
      by assert ((n <? 0) = true) as -> by lia.
Qed.

Lemma slow_response_delay_witness :
  slow_response {["delay" := "-2"]} Float.zero "2024-01-01T00:00:00"
    "2024-01-01T00:00:00" = ([], Raise ValueError) /\
  slow_response {["delay" := "-10000000000"]} Float.zero "2024-01-01T00:00:00"
    "2024-01-01T00:00:00" = ([], Raise OverflowError).
Proof.
  split.
  - refine (proj2 (proj2 (slow_response_delay {["delay" := "-2"]} (-2)
                            Float.zero "2024-01-01T00:00:00"
                            "2024-01-01T00:00:00" _)) _);
      [reflexivity|lia].
  - refine (proj2 (proj2 (slow_response_delay {["delay" := "-10000000000"]}
                            (-10000000000) Float.zero "2024-01-01T00:00:00"
                            "2024-01-01T00:00:00" _)) _);
      [reflexivity|lia].
Defined.
End SlowResponse.

(** ** /simulate/circuit-breaker *)

Section CircuitBreaker.
Import SimulationRoutes.
Local Open Scope float_scope.

(** X2. The state is read without regard to case. The circuit refuses,
    with status 503, an error and a [retry_after] of 30, exactly when
    the state is open, or half-open with a draw that is not below 0.5;
    every other state, known or not, is served with status 200. *)
Theorem circuit_breaker_outcome (a : args) (draw : float) (now : string) :
  let state := Str.py_lower (default "closed" (a !! "state")) in
  let r := circuit_breaker a draw now in
  let refused :=
    state = "open" \/ (state = "half-open" /\ (draw <? Float.half) = false) in
  (refused ->
     status_of r = 503%Z /\
     (body_of r ≫= Json.get "retry_after") = Some (JInt 30) /\
     is_Some (body_of r ≫= Json.get "error") /\
     (body_of r ≫= Json.get "success") = None) /\
  (~ refused ->
     status_of r = 200%Z /\
     (body_of r ≫= Json.get "success") = Some (JBool true) /\
     (body_of r ≫= Json.get "error") = None).
Proof.
  intros state r refused. subst r refused. unfold circuit_breaker. fold state.
  destruct (String.eqb_spec state "open") as [Hopen|Hopen].
  { split; [by eauto|]. intros []. by left. }
  destruct (String.eqb_spec state "half-open") as [Hhalf|Hhalf].
  - destruct (draw <? Float.half) eqn:Hdraw.
    + split; [|by eauto]. by intros [?|[_ ?]].
    + split; [by eauto|]. intros []. by right.
  - split; [|by eauto]. by intros [?|[? _]].
Qed.

Lemma circuit_breaker_outcome_witness :
  status_of (circuit_breaker {["state" := "OPEN"]} Float.zero
               "2024-01-01T00:00:00") = 503%Z.
Proof.
  refine (proj1 (proj1 (circuit_breaker_outcome {["state" := "OPEN"]}
                          Float.zero "2024-01-01T00:00:00") _)).
  left. reflexivity.
Defined.
End CircuitBreaker.

(** ** /simulate/auth-required *)

Section AuthRequired.
Import SimulationRoutes Str.

Lemma auth_required_status h now :
  status_of (auth_required h now) = 200 \/ status_of (auth_required h now) = 401.
Proof.
  unfold auth_required. destruct h as [[|c s]|]; [by right| |by right].
  destruct (startswith _ _); [|by right].
  destruct (contains _ _); [by left|by right].
Qed.

(** X3. A request is authenticated exactly when its header is
    [Bearer ] followed by a token that holds [valid] in some mix of
    cases; every other request, the one without a header too, gets 401
    and an error. *)
Theorem auth_required_accepts (h : option string) (now : string) :
  (status_of (auth_required h now) = 200 <->
     exists token, h = Some ("Bearer " +:+ token) /\
                   contains "valid" (py_lower token) = true) /\
  (status_of (auth_required h now) <> 200 ->
     status_of (auth_required h now) = 401 /\
     is_Some (body_of (auth_required h now) ≫= Json.get "error")).
Proof.
  split.
  - split.
    + unfold auth_required. destruct h as [[|c s]|]; [done| |done].
      destruct (startswith (String c s) "Bearer ") eqn:Hpre; [|done].
      apply startswith_spec in Hpre as [token Htoken]. rewrite Htoken.
      change 7%nat with (length (chars "Bearer ")).
      rewrite slice_from_app.
      destruct (contains "valid" (py_lower token)) eqn:Hvalid; [|done].
      intros _. by exists token.
    + intros (token & -> & Hvalid). unfold auth_required.
      destruct ("Bearer " +:+ token) as [|c s] eqn:Hs; [done|]. rewrite <- Hs.
      replace (startswith ("Bearer " +:+ token) "Bearer ") with true
        by (symmetry; apply startswith_spec; eauto).
      cbn [negb]. change 7%nat with (length (chars "Bearer ")).
      by rewrite slice_from_app, Hvalid.
  - intros Hno. destruct (auth_required_status h now) as [|H401]; [done|].
    split; [done|]. revert H401. unfold auth_required.
    destruct h as [[|c s]|]; [by eauto| |by eauto].
    destruct (startswith _ _); [|by eauto].
    destruct (contains _ _); [done|by eauto].
Qed.

Lemma auth_required_accepts_witness :
  status_of (auth_required (Some "Bearer my-VALID-token") "2024-01-01T00:00:00")
    = 200.
Proof.
  apply (proj1 (auth_required_accepts (Some "Bearer my-VALID-token")
                  "2024-01-01T00:00:00")).
  exists "my-VALID-token". split; reflexivity.
Defined.

(** X4. The response to an authenticated request shows the first ten
    characters of the token and no more: the preview is that prefix
    followed by three dots, thirteen characters at most. *)
Theorem auth_required_preview (token now : string) :
  contains "valid" (py_lower token) = true ->
  exists preview,
    (body_of (auth_required (Some ("Bearer " +:+ token)) now)
       ≫= Json.get "token_preview") = Some (JStr preview) /\
    chars preview = take 10 (chars token) ++ chars "..." /\
    len preview <= 13.
Proof.
  intros Hvalid. exists (slice_to 10 token +:+ "...").
  assert (chars (slice_to 10 token +:+ "...") = take 10 (chars token) ++ chars "...")
    as Hchars by (unfold slice_to; by rewrite chars_app, chars_text).
  split; [|split; [done|]].
  - unfold auth_required.
    destruct ("Bearer " +:+ token) as [|c s] eqn:Hs; [done|]. rewrite <- Hs.
    replace (startswith ("Bearer " +:+ token) "Bearer ") with true
      by (symmetry; apply startswith_spec; eauto).
    cbn [negb]. change 7%nat with (length (chars "Bearer ")).
    by rewrite slice_from_app, Hvalid.
  - unfold len. rewrite Hchars, length_app, length_take.
    change (length (chars "...")) with 3%nat. lia.
Qed.

Lemma auth_required_preview_witness :
  exists preview,
    (body_of (auth_required (Some "Bearer a-valid-token-of-some-length")
                "2024-01-01T00:00:00") ≫= Json.get "token_preview")
      = Some (JStr preview) /\
    chars preview = chars "a-valid-to..." /\
    len preview <= 13.
Proof.
  exact (auth_required_preview "a-valid-token-of-some-length"
           "2024-01-01T00:00:00" eq_refl).
Defined.
End AuthRequired.

(** ** Lists of dictionaries in a response *)

Lemma ints_of_Forall2 (key : string) (f : Z -> Z) (l : list Z)
    (items : list (json float)) :
  Forall2 (fun i y => Json.get key y = Some (JInt (f i))) l items ->
  (items ≫= fun j => match Json.get key j with
                     | Some (JInt n) => [n]
                     | _ => []
                     end) = f <$> l.
Proof.
  induction 1 as [|i y l items Hy _ IH]; [done|].
  cbn. rewrite Hy. cbn. f_equal. exact IH.
Qed.

Lemma mapM_result {A B} (f : A -> result B) (P : A -> B -> Prop) l :
  (forall x, x ∈ l -> exists y, f x = Ok y) ->
  (forall x y, f x = Ok y -> P x y) ->
  exists ys, mapM f l = Ok ys /\ Forall2 P l ys.
Proof.
  intros Hok HP. destruct (mapM_all_Ok f l Hok) as (ys & Hys & _).
  exists ys. split; [done|].
  apply mapM_Ok in Hys. eapply Forall2_impl; [exact Hys|]. apply HP.
Qed.

(** ** /simulate/large-response *)

Section LargeResponse.
Import SimulationRoutes.

Lemma large_item_id draws i :
  exists y, large_item draws i = Ok y /\ Json.get "id" y = Some (JInt i).
Proof.
  unfold large_item.
  destruct (choice_elem ["A"; "B"; "C"; "D"] (category (draws i)))
    as (c & -> & _); [done|].
  eexists. split; [reflexivity|done].
Qed.

(** X5. The response never holds more than 10000 items: it holds
    [min(size, 10000)] of them when that is positive and none
    otherwise, numbered from 0 in order, and [total_items] is their
    number, even where [requested_size] is reported negative. *)
Theorem large_response_items (a : args) (n : Z) (draws : Z -> item_draws) :
  arg_int a "size" 1000 = Ok n ->
  let size := Z.min n 10000 in
  exists items,
    large_response a draws =
      Ok (Jsonify
            (JObj [("total_items", JInt (Z.of_nat (length items)));
                   ("requested_size", JInt size);
                   ("items", JList items)]) 200) /\
    Z.of_nat (length items) = Z.max 0 size /\
    Z.of_nat (length items) <= 10000 /\
    Forall2 (fun i y => Json.get "id" y = Some (JInt i)) (range size) items.
Proof.
  intros Hn size. unfold large_response. rewrite Hn. cbn. fold size.
  destruct (mapM_result (large_item draws)
              (fun i y => Json.get "id" y = Some (JInt i)) (range size))
    as (items & -> & Hids).
  { intros i _. destruct (large_item_id draws i) as (y & Hy & _). eauto. }
  { intros i y Hy. destruct (large_item_id draws i) as (y' & Hy' & Hid).
    congruence. }
  exists items. cbn. split; [done|].
  assert (length items = Z.to_nat size) as Hlen.
  { rewrite <- (Forall2_length _ _ _ Hids). apply length_seqZ. }
  repeat split; [lia|lia|done].
Qed.

Lemma large_response_items_witness :
  exists items,
    large_response {["size" := "-3"]}
      (fun _ => {| value := Float.zero; category := 0; tag_count := 1;
                   created := ""; updated := ""; version := 1 |}) =
      Ok (Jsonify
            (JObj [("total_items", JInt (Z.of_nat (length items)));
                   ("requested_size", JInt (-3));
                   ("items", JList items)]) 200) /\
    Z.of_nat (length items) = 0.
Proof.
  assert (arg_int {["size" := "-3"]} "size" 1000 = Ok (-3)) as Hsize
    by reflexivity.
  destruct (large_response_items {["size" := "-3"]} (-3)
              (fun _ => {| value := Float.zero; category := 0; tag_count := 1;
                           created := ""; updated := ""; version := 1 |})
              Hsize) as (items & Hrun & Hlen & _).
  exists items. split; [exact Hrun|exact Hlen].
Defined.
End LargeResponse.

(** ** /advanced/paginated *)

Lemma bind_ext_in {A B} (f g : A -> list B) (l : list A) :
  (forall x, x ∈ l -> f x = g x) -> l ≫= f = l ≫= g.
Proof.
  induction l as [|x l IH]; intros Hfg; [done|]. cbn.
  rewrite (Hfg x) by left. rewrite IH; [done|].
  intros y Hy. apply Hfg. by right.
Qed.

(** The number of pages is the least [q] with [q * per_page >= total]. *)
Lemma total_pages_bounds (total per_page : Z) :
  1 <= per_page ->
  let total_pages := (total + per_page - 1) / per_page in
  (total_pages - 1) * per_page < total <= total_pages * per_page.
Proof.
  intros Hpp total_pages.
  pose proof (Z.mul_div_le (total + per_page - 1) per_page ltac:(lia)) as Hle.
  pose proof (Z.mul_succ_div_gt (total + per_page - 1) per_page ltac:(lia))
    as Hgt.
  fold total_pages in Hle, Hgt. nia.
Qed.

(** The windows of the pages 1, ..., k lie end to end. *)
Lemma windows_end_to_end (per_page total : Z) (k : nat) :
  1 <= per_page -> 0 <= total ->
  (Z.of_nat k - 1) * per_page < total ->
  (seqZ 1 (Z.of_nat k) ≫= fun p =>
     seqZ ((p - 1) * per_page + 1)
          (Z.min ((p - 1) * per_page + per_page) total - (p - 1) * per_page))
  = seqZ 1 (Z.min (Z.of_nat k * per_page) total).
Proof.
  intros Hpp Htotal. induction k as [|k IH]; intros Hk.
  - change (Z.of_nat 0) with 0. rewrite !seqZ_nil by lia. done.
  - rewrite seqZ_S, bind_app, IH by nia. cbn. rewrite app_nil_r.
    replace (1 + Z.of_nat k - 1) with (Z.of_nat k) by lia.
    replace (Z.min (Z.of_nat k * per_page) total) with (Z.of_nat k * per_page)
      by nia.
    replace (Z.of_nat k * per_page + 1) with (1 + Z.of_nat k * per_page) by lia.
    rewrite <- seqZ_app by nia. f_equal. nia.
Qed.

Section Paginated.
Import AdvancedRoutes.
Variables (a : args) (base_url : string).
Variables (value : Z -> Z) (category : Z -> nat) (now : string).
Variables (p pp total_items : Z).
Hypothesis Hpage : arg_int a "page" 1 = Ok p.
Hypothesis Hper_page : arg_int a "per_page" 20 = Ok pp.
Hypothesis Htotal : arg_int a "total_items" 1000 = Ok total_items.

Let page := Z.max 1 p.
Let per_page := Z.min (Z.max 1 pp) 100.
Let total_pages := (total_items + per_page - 1) / per_page.
Let start_idx := (page - 1) * per_page.
Let end_idx := Z.min (start_idx + per_page) total_items.

Lemma paginated_data_run :
  exists items pagination,
    paginated_data a base_url value category now =
      Ok (Jsonify
            (JObj [("items", JList items);
                   ("pagination", JObj pagination);
                   ("timestamp", JStr (now +:+ "Z"))]) 200) /\
    Forall2 (fun i y => Json.get "id" y = Some (JInt (1 + i)))
      (range2 start_idx end_idx) items /\
    Json.assoc "has_next" pagination = Some (JBool (page <? total_pages)) /\
    Json.assoc "next_page" pagination =
      Some (when (page <? total_pages) (JInt (page + 1))) /\
    Json.assoc "has_prev" pagination = Some (JBool (1 <? page)) /\
    Json.assoc "prev_page" pagination = Some (when (1 <? page) (JInt (page - 1))) /\
    Json.assoc "total_pages" pagination = Some (JInt total_pages).
Proof.
  unfold paginated_data. rewrite Hpage, Hper_page, Htotal. cbn.
  fold page per_page. fold total_pages start_idx. fold end_idx.
  match goal with
  | |- context [mapM ?f (range2 start_idx end_idx)] =>
      destruct (mapM_result f
                  (fun i y => Json.get "id" y = Some (JInt (1 + i)))
                  (range2 start_idx end_idx)) as (items & -> & Hids)
  end.
  - intros i _.
    destruct (choice_elem ["A"; "B"; "C"] (category i)) as (c & -> & _);
      [done|]. eauto.
  - intros i y.
    destruct (choice_elem ["A"; "B"; "C"] (category i)) as (c & -> & _);
      [done|]. cbn. intros [= <-]. cbn. do 2 f_equal. lia.
  - cbn. eexists items, _. split; [reflexivity|]. by repeat split.
Qed.

Lemma paginated_data_ids :
  exists r,
    paginated_data a base_url value category now = Ok r /\
    status_of r = 200 /\
    ints_of "items" "id" r = seqZ (start_idx + 1) (end_idx - start_idx).
Proof.
  destruct paginated_data_run as (items & pagination & Hrun & Hids & _).
  eexists. split; [exact Hrun|]. split; [done|].
  unfold ints_of. cbn [body_of mbind option_bind Json.get Json.assoc].
  change (String.eqb "items" "items") with true. cbn match.
  rewrite (ints_of_Forall2 "id" (Z.add 1) _ _ Hids).
  unfold range2. rewrite fmap_add_seqZ. f_equal. lia.
Qed.

(** X6. A page holds the items whose ids follow those of the pages
    before it, [(page - 1) * per_page + 1] and on, up to [total_items]:
    never more than [per_page] of them, itself between 1 and 100, and
    none when the page lies beyond the last item. *)
Theorem paginated_data_window :
  exists r,
    paginated_data a base_url value category now = Ok r /\
    status_of r = 200 /\
    ints_of "items" "id" r = seqZ (start_idx + 1) (end_idx - start_idx) /\
    1 <= page /\ 1 <= per_page <= 100 /\
    Z.of_nat (length (ints_of "items" "id" r)) <= per_page /\
    (total_items <= start_idx -> ints_of "items" "id" r = []).
Proof.
  destruct paginated_data_ids as (r & Hrun & Hstatus & Hints).
  exists r. split; [exact Hrun|]. split; [done|].
  rewrite Hints, length_seqZ.
  repeat split; try lia.
  intros Hbeyond. apply seqZ_nil. lia.
Qed.

(** X7. [has_next] tells whether items remain after this page: it
    holds exactly when the last index of the page is below
    [total_items], and [next_page] is then the following page and is
    null otherwise; [has_prev] and [prev_page] do the same for every
    page after the first. *)
Theorem paginated_data_navigation :
  exists r pagination,
    paginated_data a base_url value category now = Ok r /\
    (body_of r ≫= Json.get "pagination") = Some pagination /\
    Json.get "has_next" pagination =
      Some (JBool (bool_decide (end_idx < total_items))) /\
    Json.get "next_page" pagination =
      Some (if bool_decide (end_idx < total_items)
            then JInt (page + 1) else JNull) /\
    Json.get "has_prev" pagination = Some (JBool (bool_decide (1 < page))) /\
    Json.get "prev_page" pagination =
      Some (if bool_decide (1 < page) then JInt (page - 1) else JNull).
Proof.
  destruct paginated_data_run
    as (items & pagination & Hrun & _ & Hnext & Hnextp & Hprev & Hprevp & _).
  eexists _, (JObj pagination). split; [exact Hrun|]. split; [done|].
  assert ((page <? total_pages) = bool_decide (end_idx < total_items)) as Hn.
  { pose proof (total_pages_bounds total_items per_page ltac:(lia)) as Hb.
    cbv zeta in Hb. fold total_pages in Hb.
    destruct (Z.ltb_spec page total_pages);
      [rewrite bool_decide_eq_true_2|rewrite bool_decide_eq_false_2];
      unfold end_idx, start_idx; nia. }
  assert ((1 <? page) = bool_decide (1 < page)) as Hp.
  { destruct (Z.ltb_spec 1 page);
      [by rewrite bool_decide_eq_true_2|by rewrite bool_decide_eq_false_2; lia]. }
  cbn [Json.get]. rewrite Hnext, Hnextp, Hprev, Hprevp, Hn, Hp. unfold when.
  done.
Qed.
End Paginated.

Lemma paginated_data_window_witness :
  exists r,
    AdvancedRoutes.paginated_data
      {["page" := "2"; "per_page" := "3"; "total_items" := "7"]}
      "http://localhost/advanced/paginated" (fun _ => 1) (fun _ => 0%nat)
      "2024-01-01T00:00:00" = Ok r /\
    ints_of "items" "id" r = [4; 5; 6].
Proof.
  destruct (paginated_data_window
              {["page" := "2"; "per_page" := "3"; "total_items" := "7"]}
              "http://localhost/advanced/paginated" (fun _ => 1)
              (fun _ => 0%nat) "2024-01-01T00:00:00" 2 3 7)
    as (r & Hrun & _ & Hids & _); [reflexivity..|].
  exists r. split; [exact Hrun|exact Hids].
Defined.

Lemma paginated_data_navigation_witness :
  exists r pagination,
    AdvancedRoutes.paginated_data
      {["page" := "3"; "per_page" := "3"; "total_items" := "7"]}
      "http://localhost/advanced/paginated" (fun _ => 1) (fun _ => 0%nat)
      "2024-01-01T00:00:00" = Ok r /\
    (body_of r ≫= Json.get "pagination") = Some pagination /\
    Json.get "has_next" pagination = Some (JBool false) /\
    Json.get "next_page" pagination = Some JNull.
Proof.
  destruct (paginated_data_navigation
              {["page" := "3"; "per_page" := "3"; "total_items" := "7"]}
              "http://localhost/advanced/paginated" (fun _ => 1)
              (fun _ => 0%nat) "2024-01-01T00:00:00" 3 3 7)
    as (r & pagination & Hrun & Hpag & Hnext & Hnextp & _); [reflexivity..|].
  exists r, pagination. repeat split; assumption.
Defined.

(** X8. A client that asks for the pages 1, ..., [total_pages] with the
    same [per_page] and the same [total_items] receives the ids 1, ...,
    [total_items], each once and in order. *)
Theorem paginated_data_pages_partition (request : Z -> args)
    (base_url : string) (value : Z -> Z) (category : Z -> nat) (now : string)
    (pp total_items : Z) :
  0 <= total_items ->
  let per_page := Z.min (Z.max 1 pp) 100 in
  let total_pages := (total_items + per_page - 1) / per_page in
  (forall p, 1 <= p <= total_pages ->
     arg_int (request p) "page" 1 = Ok p /\
     arg_int (request p) "per_page" 20 = Ok pp /\
     arg_int (request p) "total_items" 1000 = Ok total_items) ->
  (seqZ 1 total_pages ≫= fun p =>
     match AdvancedRoutes.paginated_data (request p) base_url value category now with
     | Ok r => ints_of "items" "id" r
     | Raise _ => []
     end) = seqZ 1 total_items.
Proof.
  intros Htotal per_page total_pages Hrequests.
  pose proof (total_pages_bounds total_items per_page ltac:(lia)) as Hb.
  cbv zeta in Hb. fold total_pages in Hb.
  rewrite (bind_ext_in _ (fun p =>
             seqZ ((p - 1) * per_page + 1)
               (Z.min ((p - 1) * per_page + per_page) total_items
                - (p - 1) * per_page))).
  - assert (0 <= total_pages) as Hpages by nia.
    rewrite <- (Z2Nat.id total_pages) by done.
    rewrite windows_end_to_end by (rewrite ?Z2Nat.id; lia).
    rewrite Z2Nat.id by done. f_equal. lia.
  - intros p Hp%elem_of_seqZ.
    destruct (Hrequests p) as (Hpage & Hper & Htot); [lia|].
    destruct (paginated_data_ids (request p) base_url value category now
                p pp total_items Hpage Hper Htot) as (r & -> & _ & ->).
    fold per_page. by replace (Z.max 1 p) with p by lia.
Qed.

Lemma paginated_data_pages_partition_witness :
  let request := fun p : Z =>
    if p =? 1 then {["page" := "1"; "per_page" := "2"; "total_items" := "3"]}
    else ({["page" := "2"; "per_page" := "2"; "total_items" := "3"]} : args) in
  ([1; 2] ≫= fun p =>
     match AdvancedRoutes.paginated_data (request p)
             "http://localhost/advanced/paginated" (fun _ => 1)
             (fun _ => 0%nat) "2024-01-01T00:00:00" with
     | Ok r => ints_of "items" "id" r
     | Raise _ => []
     end) = [1; 2; 3].
Proof.
  intros request.
  refine (paginated_data_pages_partition request
            "http://localhost/advanced/paginated" (fun _ => 1)
            (fun _ => 0%nat) "2024-01-01T00:00:00" 2 3 _ _); [lia|].
  intros p Hp. change ((3 + Z.min (Z.max 1 2) 100 - 1) / Z.min (Z.max 1 2) 100)
    with 2 in Hp.
  assert (p = 1 \/ p = 2) as [-> | ->] by lia; repeat split; reflexivity.
Defined.

(** ** The pauses of /realtime/notifications and /realtime/status *)

Section Floors.
Import Realtime RealtimeRoutes.
Local Open Scope float_scope.

Lemma leb_finite_refl (m : positive) (e : Z) :
  (S754_finite false m e <=? S754_finite false m e) = true.
Proof.
  unfold Float.leb, SFleb. cbn.
  by rewrite Z.compare_refl, Pos.compare_cont_refl.
Qed.

(** [max(b, x)] for a positive number [b] is a number, at least [b]
    and so not negative: NaN and everything below [b] give [b] itself,
    and everything above [b] is kept as it is. *)
Lemma py_max_floor (m : positive) (e : Z) (x : float) :
  let b := S754_finite false m e in
  (b <=? py_max b x) = true /\ (Float.zero <=? py_max b x) = true /\
  ((b <? x) = true -> py_max b x = x).
Proof.
  intros b. unfold py_max.
  destruct (b <? x) eqn:Hx.
  - split; [by apply ltb_leb|]. split; [|done].
    by destruct x as [[]|[]| |[] m' e'].
  - split; [apply leb_finite_refl|done].
Qed.

(** X9. Whatever the query says, also nothing numeric at all but [nan],
    the pause between two notifications is a number of at least 0.5
    seconds and the pause between two status updates one of at least
    1.0, so neither is negative or NaN, the lengths for which
    [time.sleep] raises [ValueError] in the chunked and the SSE stream;
    and at most 50 notifications are sent. The pauses have a floor and
    no cap: one above the floor is used as the request gives it. *)
Theorem pauses_floored (a : args) :
  (forall frequency count,
     notification_stream_params a = Ok (frequency, count) ->
     (Float.half <=? frequency) = true /\
     (Float.zero <=? frequency) = true /\
     (count <= 50)%Z /\
     forall x, arg_float a "frequency" (Float.of_Z 2) = Ok x ->
               (Float.half <? x) = true -> frequency = x) /\
  (forall interval duration,
     system_status_stream_params a = Ok (interval, duration) ->
     (Float.one <=? interval) = true /\
     (Float.zero <=? interval) = true /\
     forall x, arg_float a "interval" (Float.of_Z 3) = Ok x ->
               (Float.one <? x) = true -> interval = x).
Proof.
  split.
  - intros frequency count. unfold notification_stream_params.
    destruct (arg_float a "frequency" (Float.of_Z 2)) as [x|]; [|done]. cbn.
    destruct (arg_int a "count" 10) as [n|]; [|done]. cbn.
    intros [= <- <-].
    destruct (py_max_floor 4503599627370496 (-53) x)
      as (Hfloor & Hnonneg & Hkept).
    split; [exact Hfloor|]. split; [exact Hnonneg|]. split; [lia|].
    intros ? [= <-]. exact Hkept.
  - intros interval duration. unfold system_status_stream_params.
    destruct (arg_float a "interval" (Float.of_Z 3)) as [x|]; [|done]. cbn.
    destruct (arg_int a "duration" 60) as [n|]; [|done]. cbn.
    intros [= <- _].
    destruct (py_max_floor 4503599627370496 (-52) x)
      as (Hfloor & Hnonneg & Hkept).
    split; [exact Hfloor|]. split; [exact Hnonneg|].
    intros ? [= <-]. exact Hkept.
Qed.

Lemma pauses_floored_witness :
  (Float.half <=? py_max Float.half S754_nan) = true /\
  (Float.zero <=? py_max Float.half S754_nan) = true /\ (10 <= 50)%Z.
Proof.
  assert (notification_stream_params {["frequency" := "nan"]} =
            Ok (py_max Float.half S754_nan, 10%Z)) as Hparams by reflexivity.
  destruct (proj1 (pauses_floored {["frequency" := "nan"]}) _ _ Hparams)
    as (Hfloor & Hnonneg & Hcount & _).
  by repeat split.
Defined.
End Floors.

(** ** /advanced/bulk-operations *)

Lemma filter_length_Forall2 {A B} (f : A -> bool) (g : B -> bool) l rs :
  Forall2 (fun i r => g r = f i) l rs ->
  length (filter g rs) = length (filter f l).
Proof.
  induction 1 as [|i r l rs Hr _ IH]; [done|].
  rewrite !filter_cons, Hr. destruct (decide (f i)); cbn; by rewrite IH.
Qed.

Section BulkOperations.
Import Bodies.
Variable draws : Z -> op_draws.
Hypothesis Hsleeps : forall i, sleep_ok (processing_time (draws i)) = true.

Lemma operation_result_reports i op_type op_data :
  reports draws i (operation_result draws i op_type op_data).
Proof.
  unfold reports, operation_result, succeeded.
  destruct (Float.tenth <? draw (draws i))%float; cbn;
    repeat split; try done; try by intros []; eauto.
Qed.

Lemma bulk_operation_object acc i kvs :
  bulk_operation draws acc (i, JObj kvs) =
    ([Sleep (processing_time (draws i))],
     Returns (acc ++ [operation_result draws i
                        (default (JStr "unknown") (Json.assoc "type" kvs))
                        (default (JObj []) (Json.assoc "data" kvs))])).
Proof.
  unfold bulk_operation, act_of_gen, sleep. cbn. by rewrite Hsleeps.
Qed.

Lemma bulk_loop (ops : list Dyn.value) (k : nat) (acc : list Dyn.value) :
  Forall (fun op => exists kvs, op = JObj kvs) ops ->
  exists news,
    fold_act (bulk_operation draws) acc
      (imap (fun i x => (Z.of_nat (k + i), x)) ops) =
      ((fun i => Sleep (processing_time (draws i)))
         <$> seqZ (Z.of_nat k) (Z.of_nat (length ops)),
       Returns (acc ++ news)) /\
    Forall2 (reports draws) (seqZ (Z.of_nat k) (Z.of_nat (length ops))) news.
Proof.
  intros Hops. revert k acc.
  induction Hops as [|op ops [kvs ->] _ IH]; intros k acc.
  - exists []. cbn. by rewrite app_nil_r.
  - rewrite imap_cons.
    cbn [fold_act]. rewrite Nat.add_0_r, bulk_operation_object.
    destruct (IH (S k)
                (acc ++ [operation_result draws (Z.of_nat k)
                           (default (JStr "unknown") (Json.assoc "type" kvs))
                           (default (JObj []) (Json.assoc "data" kvs))]))
      as (news & Hrun & Hnews).
    erewrite imap_ext in Hrun; [|intros i x _; by rewrite Nat.add_succ_comm].
    eexists (_ :: news).
    rewrite (seqZ_cons (Z.of_nat k)) by (cbn [length]; lia).
    replace (Z.pred (Z.of_nat (length (JObj kvs :: ops))))
      with (Z.of_nat (length ops)) by (cbn [length]; lia).
    replace (Z.succ (Z.of_nat k)) with (Z.of_nat (S k)) by lia.
    split.
    + cbn [mbind act_bind]. unfold compose. rewrite Hrun.
      cbn. by rewrite <- app_assoc.
    + constructor; [apply operation_result_reports|done].
Qed.

(** X10. For a body whose operations are dictionaries, every operation
    gets one result, in order and under its index, after one sleep
    each; the summary counts them all, [successful] counts the draws
    above 0.1 and [failed] the others, so that both add up to the
    total; and the success rate is the integer 0, not a division by
    zero, when there is no operation. *)
Theorem bulk_operations_summary (data : Dyn.value) (ops : list Dyn.value)
    (now : string) :
  Dyn.get data "operations" (JList []) = Returns (JList ops) ->
  Forall (fun op => exists kvs, op = JObj kvs) ops ->
  let total := Z.of_nat (length ops) in
  let successful :=
    Z.of_nat (length (filter (fun i => Float.tenth <? draw (draws i))%float
                        (seqZ 0 total))) in
  exists results,
    bulk_operations data draws now =
      ((fun i => Sleep (processing_time (draws i))) <$> seqZ 0 total,
       Returns
         (Jsonify
            (JObj [("summary",
                     JObj [("total_operations", JInt total);
                           ("successful", JInt successful);
                           ("failed", JInt (total - successful));
                           ("success_rate",
                             if 0 <? total then
                               JFloat (Float.div (Float.of_Z successful)
                                         (Float.of_Z total))
                             else JInt 0)]);
                   ("results", JList results);
                   ("timestamp", JStr (now +:+ "Z"))]) 200)) /\
    Forall2 (reports draws) (seqZ 0 total) results /\
    0 <= successful <= total.
Proof.
  intros Hget Hops total successful.
  destruct (bulk_loop ops 0 [] Hops) as (results & Hrun & Hresults).
  exists results. split; [|split; [exact Hresults|]].
  - unfold bulk_operations. rewrite Hget.
    cbn [act_of mbind act_bind Dyn.iter Dyn.len]. unfold enumerate.
    cbn [Nat.add] in Hrun. rewrite Hrun.
    cbn [mbind act_bind mret act_ret app]. rewrite !app_nil_r.
    assert (length (filter succeeded results) =
            length (filter (fun i => Float.tenth <? draw (draws i))%float
                      (seqZ 0 total))) as Hcounted.
    { apply (filter_length_Forall2
               (fun i => Float.tenth <? draw (draws i))%float succeeded).
      eapply Forall2_impl; [exact Hresults|]. by intros i r (_ & -> & _). }
    unfold successful. rewrite <- Hcounted. reflexivity.
  - subst successful. pose proof (length_filter
      (fun i => Float.tenth <? draw (draws i))%float (seqZ 0 total)) as Hle.
    rewrite length_seqZ in Hle. lia.
Qed.

Lemma bulk_loop_aborts (ops rest : list Dyn.value) (bad : Dyn.value)
    (k : nat) (acc : list Dyn.value) :
  Forall (fun op => exists kvs, op = JObj kvs) ops ->
  (forall kvs, bad <> JObj kvs) ->
  fold_act (bulk_operation draws) acc
    (imap (fun i x => (Z.of_nat (k + i), x)) (ops ++ bad :: rest)) =
    ((fun i => Sleep (processing_time (draws i)))
       <$> seqZ (Z.of_nat k) (Z.of_nat (length ops)),
     Fails AttributeError).
Proof.
  intros Hops Hbad. revert k acc.
  induction Hops as [|op ops [kvs ->] _ IH]; intros k acc.
  - cbn [app]. rewrite imap_cons. cbn [fold_act].
    destruct bad; try done. by destruct (Hbad kvs).
  - cbn [app]. rewrite imap_cons.
    cbn [fold_act]. rewrite Nat.add_0_r, bulk_operation_object.
    cbn [mbind act_bind]. unfold compose.
    erewrite imap_ext; [|intros i x _; by rewrite <- Nat.add_succ_comm].
    rewrite (IH (S k)).
    rewrite (seqZ_cons (Z.of_nat k)) by (cbn [length]; lia).
    replace (Z.pred (Z.of_nat (length (JObj kvs :: ops))))
      with (Z.of_nat (length ops)) by (cbn [length]; lia).
    by replace (Z.succ (Z.of_nat k)) with (Z.of_nat (S k)) by lia.
Qed.

(** X11. An operation that is not a dictionary makes the handler raise
    [AttributeError] when its turn comes: the operations before it have
    been slept for, and no result of theirs is returned. *)
Theorem bulk_operations_aborts (data : Dyn.value)
    (ops rest : list Dyn.value) (bad : Dyn.value) (now : string) :
  Dyn.get data "operations" (JList []) = Returns (JList (ops ++ bad :: rest)) ->
  Forall (fun op => exists kvs, op = JObj kvs) ops ->
  (forall kvs, bad <> JObj kvs) ->
  bulk_operations data draws now =
    ((fun i => Sleep (processing_time (draws i)))
       <$> seqZ 0 (Z.of_nat (length ops)),
     Fails AttributeError).
Proof.
  intros Hget Hops Hbad. unfold bulk_operations. rewrite Hget.
  cbn [act_of mbind act_bind Dyn.iter]. unfold enumerate.
  pose proof (bulk_loop_aborts ops rest bad 0 [] Hops Hbad) as Hrun.
  cbn [Nat.add] in Hrun. by rewrite Hrun.
Qed.
End BulkOperations.

Lemma bulk_operations_summary_witness :
  let draws := fun i : Z =>
    {| Bodies.processing_time := Float.tenth;
       Bodies.draw := if i =? 0 then Float.zero else Float.one;
       Bodies.new_id := 1234; Bodies.stamp := "2024-01-01T00:00:00" |} in
  exists results,
    (Bodies.bulk_operations
       (JObj [("operations", JList [JObj [("type", JStr "create")]; JObj []])])
       draws "2024-01-01T00:00:01").2 =
      Returns
        (Jsonify
           (JObj [("summary",
                    JObj [("total_operations", JInt 2);
                          ("successful", JInt 1);
                          ("failed", JInt 1);
                          ("success_rate", JFloat Float.half)]);
                  ("results", JList results);
                  ("timestamp", JStr "2024-01-01T00:00:01Z")]) 200).
Proof.
  intros draws.
  destruct (bulk_operations_summary draws (fun _ => eq_refl)
              (JObj [("operations",
                       JList [JObj [("type", JStr "create")]; JObj []])])
              [JObj [("type", JStr "create")]; JObj []]
              "2024-01-01T00:00:01" eq_refl)
    as (results & Hrun & _).
  { repeat constructor; eauto. }
  exists results. rewrite Hrun. reflexivity.
Defined.

Lemma bulk_operations_aborts_witness :
  let draws := fun _ : Z =>
    {| Bodies.processing_time := Float.tenth;
       Bodies.draw := Float.one;
       Bodies.new_id := 1234;
       Bodies.stamp := "2024-01-01T00:00:00" |} in
  Bodies.bulk_operations
    (JObj [("operations", JList [JObj []; JStr "delete"; JObj []])])
    draws "2024-01-01T00:00:01" = ([Sleep Float.tenth], Fails AttributeError).
Proof.
  intros draws.
  refine (bulk_operations_aborts draws (fun _ => eq_refl)
            (JObj [("operations", JList [JObj []; JStr "delete"; JObj []])])
            [JObj []] [JObj []] (JStr "delete") _ eq_refl _ _).
  - repeat constructor; eauto.
  - discriminate.
Defined.

(** ** /advanced/complex-validation *)

Section ComplexValidation.
Import Bodies.

Lemma contains_present kvs key v :
  Json.assoc key kvs = Some v -> Dyn.contains key (JObj kvs) = Returns true.
Proof. intros H. cbn. rewrite H. by rewrite bool_decide_eq_true_2 by eauto. Qed.

Lemma contains_absent kvs key :
  Json.assoc key kvs = None -> Dyn.contains key (JObj kvs) = Returns false.
Proof.
  intros H. cbn. rewrite H.
  by rewrite bool_decide_eq_false_2 by (by intros [? ?]).
Qed.

Lemma check_required_object kvs errors field :
  check_required (JObj kvs) errors field =
    Returns (match Json.assoc field kvs with
             | Some _ => errors
             | None => errors ++ [missing field]
             end).
Proof.
  unfold check_required.
  destruct (Json.assoc field kvs) eqn:H.
  - by erewrite contains_present.
  - by rewrite contains_absent.
Qed.

Lemma fold_outcome_cons {A B} (body : A -> B -> outcome A) acc x l :
  fold_outcome body acc (x :: l) =
    body acc x ≫= fun acc' => fold_outcome body acc' l.
Proof. reflexivity. Qed.

(** The first loop reports every field that an object lacks and keeps
    the errors it was given. *)
Lemma required_object kvs fields errors :
  exists errors',
    fold_outcome (check_required (JObj kvs)) errors fields = Returns errors' /\
    (forall e, e ∈ errors -> e ∈ errors') /\
    (forall field, field ∈ fields -> Json.assoc field kvs = None ->
                   missing field ∈ errors') /\
    ((forall field, field ∈ fields -> is_Some (Json.assoc field kvs)) ->
     errors' = errors).
Proof.
  revert errors. induction fields as [|f fields IH]; intros errors.
  - exists errors. repeat split; try done. by intros f ?%elem_of_nil.
  - rewrite fold_outcome_cons, check_required_object.
    destruct (Json.assoc f kvs) eqn:Hf; cbn [mbind outcome_bind].
    + destruct (IH errors) as (errors' & -> & Hkeep & Hmiss & Hnone).
      exists errors'. repeat split; try done.
      * intros field [->|Hin]%elem_of_cons Hnone'; [congruence|eauto].
      * intros Hall. apply Hnone. intros field Hin. apply Hall. by right.
    + destruct (IH (errors ++ [missing f]))
        as (errors' & -> & Hkeep & Hmiss & _).
      exists errors'. repeat split; try done.
      * intros e He. apply Hkeep, elem_of_app. by left.
      * intros field [->|Hin]%elem_of_cons Hnone'; [|eauto].
        apply Hkeep, elem_of_app. right. by left.
      * intros Hall. destruct (Hall f) as [v Hv]; [left|congruence].
Qed.

(** The three checks that follow only add to the errors. *)
Lemma check_email_keeps data errors errors' :
  check_email data errors = Returns errors' ->
  forall e, e ∈ errors -> e ∈ errors'.
Proof.
  unfold check_email.
  destruct (Dyn.contains "email" data) as [[]|]; cbn; [|by intros [= <-]|done].
  destruct (Dyn.item data "email") as [email|]; cbn; [|done].
  destruct (Dyn.contains "@" email) as [[]|]; cbn; [|by intros [= <-]; set_solver|done].
  destruct (Dyn.contains "." email) as [[]|]; cbn; [| |done];
    intros [= <-]; set_solver.
Qed.

Lemma check_age_keeps data errors errors' warnings :
  check_age data errors = Returns (errors', warnings) ->
  forall e, e ∈ errors -> e ∈ errors'.
Proof.
  unfold check_age.
  destruct (Dyn.contains "age" data) as [[]|]; cbn; [|by intros [= <- _]|done].
  destruct (Dyn.item data "age" ≫= Dyn.int) as [age|[[]| | |]];
    try done; try (intros [= <- _]; set_solver).
  destruct (age <? 0); [intros [= <- _]; set_solver|].
  destruct (150 <? age); by intros [= <- _].
Qed.

Lemma check_name_keeps data errors errors' :
  check_name data errors = Returns errors' ->
  forall e, e ∈ errors -> e ∈ errors'.
Proof.
  unfold check_name.
  destruct (Dyn.contains "name" data) as [[]|]; cbn; [|by intros [= <-]|done].
  destruct (Dyn.item data "name") as [name|]; cbn; [|done].
  destruct (Dyn.len name) as [n|]; cbn; [|done].
  destruct (n <? 2); [intros [= <-]; set_solver|].
  destruct (100 <? n); intros [= <-]; set_solver.
Qed.

Lemma check_email_str kvs email errors :
  Json.assoc "email" kvs = Some (JStr email) ->
  check_email (JObj kvs) errors =
    Returns (if Str.contains "@" email && Str.contains "." email then errors
             else errors ++ ["Invalid email format"]).
Proof.
  intros H. unfold check_email. erewrite contains_present by done.
  cbn [mbind outcome_bind Dyn.item]. rewrite H.
  cbn [mbind outcome_bind Dyn.contains fmap outcome_fmap].
  by destruct (Str.contains "@" email), (Str.contains "." email).
Qed.

Lemma check_age_int kvs age errors :
  Json.assoc "age" kvs = Some (JInt age) ->
  check_age (JObj kvs) errors =
    Returns (if age <? 0 then (errors ++ ["Age cannot be negative"], [])
             else if 150 <? age then (errors, ["Age seems unusually high"])
             else (errors, [])).
Proof.
  intros H. unfold check_age. erewrite contains_present by done.
  cbn [mbind outcome_bind Dyn.item]. rewrite H.
  cbn [mbind outcome_bind Dyn.int].
  by destruct (age <? 0), (150 <? age).
Qed.

Lemma check_name_str kvs name errors :
  Json.assoc "name" kvs = Some (JStr name) ->
  check_name (JObj kvs) errors =
    Returns (if Str.len name <? 2 then
               errors ++ ["Name must be at least 2 characters"]
             else if 100 <? Str.len name then
               errors ++ ["Name cannot exceed 100 characters"]
             else errors).
Proof.
  intros H. unfold check_name. erewrite contains_present by done.
  cbn [mbind outcome_bind Dyn.item]. rewrite H. reflexivity.
Qed.

(** X12. /advanced/complex-validation on an object whose name and email
    are strings and whose age is an integer: the body is accepted, with
    status 200 and the body echoed under processed_data, exactly when
    the name has 2 to 100 characters, the email holds both an at sign
    and a dot, and the age is not negative; otherwise the status is 422
    and the errors are a non-empty list. An age above 150 gives the one
    warning in either case. *)
Theorem complex_validation_verdict kvs name email age now :
  Json.assoc "name" kvs = Some (JStr name) ->
  Json.assoc "email" kvs = Some (JStr email) ->
  Json.assoc "age" kvs = Some (JInt age) ->
  let accepted :=
    (2 <=? Str.len name) && (Str.len name <=? 100) &&
    Str.contains "@" email && Str.contains "." email && (0 <=? age) in
  let warnings := if 150 <? age then ["Age seems unusually high"] else [] in
  if accepted then
    complex_validation (JObj kvs) now =
      Returns (Jsonify (JObj [("valid", JBool true);
                              ("warnings", strings warnings);
                              ("processed_data", JObj kvs);
                              ("timestamp", JStr (now +:+ "Z"))]) 200)
  else
    exists e errors,
      complex_validation (JObj kvs) now =
        Returns (Jsonify (JObj [("valid", JBool false);
                                ("errors", strings (e :: errors));
                                ("warnings", strings warnings);
                                ("timestamp", JStr (now +:+ "Z"))]) 422).
Proof.
  intros Hname Hemail Hage accepted warnings. subst accepted warnings.
  unfold complex_validation.
  destruct (required_object kvs ["name"; "email"; "age"] [])
    as (errors0 & -> & _ & _ & ->).
  2: { intros field Hin.
       repeat (apply elem_of_cons in Hin as [->|Hin]; [eauto|]).
       by apply elem_of_nil in Hin. }
  cbn [mbind outcome_bind].
  rewrite (check_email_str _ _ _ Hemail). cbn [mbind outcome_bind].
  rewrite (check_age_int _ _ _ Hage).
  rewrite !Z.leb_antisym.
  destruct (Str.contains "@" email), (Str.contains "." email),
    (Z.ltb_spec age 0), (Z.ltb_spec 150 age),
    (Str.len name <? 2) eqn:Hshort, (100 <? Str.len name) eqn:Hlong;
    try lia; cbn [mbind outcome_bind andb negb app];
    rewrite (check_name_str _ _ _ Hname), Hshort, ?Hlong;
    cbn [mbind outcome_bind andb negb app]; eauto.
Qed.

Lemma complex_validation_verdict_witness :
  let body := [("name", JStr "Al"); ("email", JStr "al@example.com");
               ("age", JInt 151)] in
  Bodies.complex_validation (JObj body) "2024-01-01T00:00:00" =
    Returns (Jsonify (JObj [("valid", JBool true);
                            ("warnings", strings ["Age seems unusually high"]);
                            ("processed_data", JObj body);
                            ("timestamp", JStr "2024-01-01T00:00:00Z")]) 200).
Proof.
  intros body.
  exact (complex_validation_verdict body "Al" "al@example.com" 151
           "2024-01-01T00:00:00" eq_refl eq_refl eq_refl).
Defined.

(** Which stage fails, and when. *)
Lemma check_email_outcome kvs errors :
  if field_is scalar "email" kvs
  then check_email (JObj kvs) errors = Fails TypeError
  else exists errors', check_email (JObj kvs) errors = Returns errors'.
Proof.
  unfold field_is, check_email.
  destruct (Json.assoc "email" kvs) as [email|] eqn:H; cbn [from_option].
  - erewrite contains_present by done.
    cbn [mbind outcome_bind Dyn.item]. rewrite H. cbn [mbind outcome_bind].
    destruct email; cbn [scalar Dyn.contains mbind outcome_bind]; try done;
      match goal with
      | |- context [negb ?b] =>
          destruct b; cbn [negb mbind outcome_bind fmap outcome_fmap]; eauto
      end.
  - rewrite contains_absent by done. cbn. eauto.
Qed.

Lemma check_age_outcome kvs errors :
  if field_is infinite "age" kvs
  then check_age (JObj kvs) errors = Fails (Builtin OverflowError)
  else exists errors' warnings,
         check_age (JObj kvs) errors = Returns (errors', warnings).
Proof.
  unfold field_is, check_age.
  destruct (Json.assoc "age" kvs) as [age|] eqn:H; cbn [from_option].
  - erewrite contains_present by done.
    cbn [mbind outcome_bind Dyn.item]. rewrite H. cbn [mbind outcome_bind].
    destruct age as [|b|n|x|s|l|o]; cbn [infinite Dyn.int]; eauto.
    + repeat case_match; eauto.
    + repeat case_match; eauto.
    + destruct x; cbn [infinite]; eauto; repeat case_match; eauto.
    + destruct (py_int s) as [n|e] eqn:Hs; cbn [of_result].
      * repeat case_match; eauto.
      * apply py_int_raises in Hs as ->. eauto.
  - rewrite contains_absent by done. cbn. eauto.
Qed.

Lemma check_name_outcome kvs errors :
  if field_is scalar "name" kvs
  then check_name (JObj kvs) errors = Fails TypeError
  else exists errors', check_name (JObj kvs) errors = Returns errors'.
Proof.
  unfold field_is, check_name.
  destruct (Json.assoc "name" kvs) as [name|] eqn:H; cbn [from_option].
  - erewrite contains_present by done.
    cbn [mbind outcome_bind Dyn.item]. rewrite H. cbn [mbind outcome_bind].
    destruct name; cbn [scalar Dyn.len mbind outcome_bind]; eauto.
  - rewrite contains_absent by done. cbn. eauto.
Qed.

(** The response for the errors and warnings that the checks leave. *)
Lemma complex_validation_stages kvs now errors0 errors1 errors2 warnings errors :
  fold_outcome (check_required (JObj kvs)) [] ["name"; "email"; "age"] =
    Returns errors0 ->
  check_email (JObj kvs) errors0 = Returns errors1 ->
  check_age (JObj kvs) errors1 = Returns (errors2, warnings) ->
  check_name (JObj kvs) errors2 = Returns errors ->
  exists r,
    complex_validation (JObj kvs) now = Returns r /\
    (forall e, e ∈ errors ->
       status_of r = 422 /\
       (body_of r ≫= Json.get "errors") = Some (strings errors)).
Proof.
  intros H0 H1 H2 H3. unfold complex_validation.
  rewrite H0. cbn [mbind outcome_bind]. rewrite H1. cbn [mbind outcome_bind].
  rewrite H2. cbn [mbind outcome_bind]. rewrite H3. cbn [mbind outcome_bind].
  destruct errors as [|e' errors]; eexists; (split; [done|]).
  - by intros e ?%elem_of_nil.
  - done.
Qed.

(** X13. /advanced/complex-validation on an object that lacks one of
    name, email and age, and whose fields that are there raise nothing
    (no number, boolean or null for the email or the name, no infinite
    age): the handler returns status 422 and its errors hold "Missing
    required field: " followed by the name of that field. *)
Theorem complex_validation_missing_field kvs field now :
  field ∈ ["name"; "email"; "age"] ->
  Json.assoc field kvs = None ->
  field_is scalar "email" kvs = false ->
  field_is infinite "age" kvs = false ->
  field_is scalar "name" kvs = false ->
  exists r errors,
    complex_validation (JObj kvs) now = Returns r /\
    status_of r = 422 /\
    (body_of r ≫= Json.get "errors") = Some (strings errors) /\
    missing field ∈ errors.
Proof.
  intros Hfield Hnone Hemail Hage Hname.
  destruct (required_object kvs ["name"; "email"; "age"] [])
    as (errors0 & H0 & _ & Hmissing & _).
  pose proof (check_email_outcome kvs errors0) as H1.
  rewrite Hemail in H1. destruct H1 as [errors1 H1].
  pose proof (check_age_outcome kvs errors1) as H2.
  rewrite Hage in H2. destruct H2 as (errors2 & warnings & H2).
  pose proof (check_name_outcome kvs errors2) as H3.
  rewrite Hname in H3. destruct H3 as [errors H3].
  assert (missing field ∈ errors) as Hin.
  { eapply check_name_keeps; [done|]. eapply check_age_keeps; [done|].
    eapply check_email_keeps; [done|]. by apply Hmissing. }
  destruct (complex_validation_stages kvs now _ _ _ _ _ H0 H1 H2 H3)
    as (r & Hr & Hrejected).
  destruct (Hrejected _ Hin) as [Hstatus Herrors].
  by exists r, errors.
Qed.

Lemma complex_validation_missing_field_witness :
  exists r errors,
    Bodies.complex_validation
      (JObj [("name", JStr "Alice"); ("age", JStr "forty")])
      "2024-01-01T00:00:00" = Returns r /\
    status_of r = 422 /\
    (body_of r ≫= Json.get "errors") = Some (strings errors) /\
    "Missing required field: email" ∈ errors.
Proof.
  refine (complex_validation_missing_field
            [("name", JStr "Alice"); ("age", JStr "forty")] "email"
            "2024-01-01T00:00:00" _ eq_refl eq_refl eq_refl eq_refl).
  repeat constructor.
Defined.

(** X14. /advanced/complex-validation on any object: the handler raises
    exactly when the email is a number, a boolean or null (TypeError,
    from the [in] test), or else the age is an infinite number
    (OverflowError, which the handler's except clause does not list), or
    else the name is a number, a boolean or null (TypeError, from
    [len]); in every other case it returns status 200 or 422. *)
Theorem complex_validation_faults kvs now :
  match complex_validation (JObj kvs) now with
  | Fails f =>
      f = (if field_is scalar "email" kvs then TypeError
           else if field_is infinite "age" kvs then Builtin OverflowError
           else TypeError) /\
      (field_is scalar "email" kvs || field_is infinite "age" kvs ||
         field_is scalar "name" kvs) = true
  | Returns r =>
      (field_is scalar "email" kvs || field_is infinite "age" kvs ||
         field_is scalar "name" kvs) = false /\
      (status_of r = 200 \/ status_of r = 422)
  end.
Proof.
  destruct (required_object kvs ["name"; "email"; "age"] [])
    as (errors0 & H0 & _).
  pose proof (check_email_outcome kvs errors0) as H1.
  unfold complex_validation. rewrite H0. cbn [mbind outcome_bind].
  destruct (field_is scalar "email" kvs).
  { by rewrite H1. }
  destruct H1 as [errors1 ->]. cbn [mbind outcome_bind].
  pose proof (check_age_outcome kvs errors1) as H2.
  destruct (field_is infinite "age" kvs).
  { by rewrite H2. }
  destruct H2 as (errors2 & warnings & ->). cbn [mbind outcome_bind].
  pose proof (check_name_outcome kvs errors2) as H3.
  destruct (field_is scalar "name" kvs).
  { by rewrite H3. }
  destruct H3 as [errors ->]. cbn [mbind outcome_bind].
  destruct errors; cbn; auto.
Qed.

(** X15. /advanced/complex-validation on an object whose age is there
    but is refused by [int()] with ValueError or TypeError (a string
    that is no integer, null, a list, an object, NaN), and whose email
    and name raise nothing: the handler returns status 422 and its
    errors hold "Age must be a number". *)
Theorem complex_validation_age_not_a_number kvs age now :
  Json.assoc "age" kvs = Some age ->
  Dyn.int age = Fails (Builtin ValueError) \/ Dyn.int age = Fails TypeError ->
  field_is scalar "email" kvs = false ->
  field_is scalar "name" kvs = false ->
  exists r errors,
    complex_validation (JObj kvs) now = Returns r /\
    status_of r = 422 /\
    (body_of r ≫= Json.get "errors") = Some (strings errors) /\
    "Age must be a number" ∈ errors.
Proof.
  intros Hage Hint Hemail Hname.
  destruct (required_object kvs ["name"; "email"; "age"] [])
    as (errors0 & H0 & _).
  pose proof (check_email_outcome kvs errors0) as H1.
  rewrite Hemail in H1. destruct H1 as [errors1 H1].
  assert (check_age (JObj kvs) errors1 =
            Returns (errors1 ++ ["Age must be a number"], [])) as H2.
  { unfold check_age. erewrite contains_present by done.
    cbn [mbind outcome_bind Dyn.item]. rewrite Hage. cbn [mbind outcome_bind].
    by destruct Hint as [-> | ->]. }
  pose proof (check_name_outcome kvs (errors1 ++ ["Age must be a number"]))
    as H3.
  rewrite Hname in H3. destruct H3 as [errors H3].
  assert ("Age must be a number" ∈ errors) as Hin.
  { eapply check_name_keeps; [done|]. apply elem_of_app. right. by left. }
  destruct (complex_validation_stages kvs now _ _ _ _ _ H0 H1 H2 H3)
    as (r & Hr & Hrejected).
  destruct (Hrejected _ Hin) as [Hstatus Herrors].
  by exists r, errors.
Qed.

Lemma complex_validation_age_not_a_number_witness :
  exists r errors,
    Bodies.complex_validation
      (JObj [("name", JStr "Alice"); ("email", JStr "a@b.c");
             ("age", JStr "forty")])
      "2024-01-01T00:00:00" = Returns r /\
    status_of r = 422 /\
    (body_of r ≫= Json.get "errors") = Some (strings errors) /\
    "Age must be a number" ∈ errors.
Proof.
  exact (complex_validation_age_not_a_number
           [("name", JStr "Alice"); ("email", JStr "a@b.c");
            ("age", JStr "forty")] (JStr "forty")
           "2024-01-01T00:00:00" eq_refl (or_introl eq_refl) eq_refl eq_refl).
Defined.
End ComplexValidation.

(** ** /advanced/graphql *)

Section Graphql.
Import Str Bodies.

Lemma occurs_spec p l :
  occurs p l = true <-> exists a b, l = a ++ p ++ b.
Proof.
  induction l as [|c l IH]; cbn [occurs].
  - rewrite orb_false_r, starts_spec. split.
    + intros [r Hr]. by exists [], r.
    + intros (a & b & Hab). symmetry in Hab.
      apply app_nil in Hab as [-> Hab]. by exists b.
  - rewrite orb_true_iff, starts_spec, IH. split.
    + intros [[r Hr]|(a & b & ->)]; [by exists [], r|by exists (c :: a), b].
    + intros ([|c' a] & b & Hab); [left; by exists b|].
      injection Hab as -> ->. right. by exists a, b.
Qed.

Lemma contains_spec needle hay :
  contains needle hay = true <->
  exists before after, hay = before +:+ needle +:+ after.
Proof.
  unfold contains. rewrite occurs_spec. split.
  - intros (a & b & Hab). exists (text a), (text b).
    rewrite <- (text_chars hay), Hab.
    rewrite <- (text_chars (text a +:+ needle +:+ text b)).
    by rewrite !chars_app, !chars_text.
  - intros (before & after & ->). exists (chars before), (chars after).
    by rewrite !chars_app.
Qed.

Lemma py_lower_app s1 s2 : py_lower (s1 +:+ s2) = py_lower s1 +:+ py_lower s2.
Proof.
  unfold py_lower. rewrite chars_app, fmap_app.
  rewrite <- (text_chars (text _ +:+ text _)).
  by rewrite chars_app, !chars_text.
Qed.

(** X16. /advanced/graphql finds [users] in the query whatever the case
    of its letters and before it looks for [posts]: a query that holds
    a word whose lower case is [users] is answered with status 200 and
    the three users, also when it holds [posts] as well. *)
Theorem graphql_simulator_users kvs before word after now :
  py_lower word = "users" ->
  Json.assoc "query" kvs = Some (JStr (before +:+ word +:+ after)) ->
  exists r,
    graphql_simulator (JObj kvs) now = Returns r /\
    status_of r = 200 /\
    (body_of r ≫= Json.get "data") = Some (JObj [("users", users)]) /\
    (body_of r ≫= Json.get "extensions") ≫= Json.get "query" =
      Some (JStr (before +:+ word +:+ after)).
Proof.
  intros Hword Hquery. unfold graphql_simulator.
  cbn [Dyn.get mbind outcome_bind]. rewrite Hquery.
  cbn [from_option id Dyn.lower mbind outcome_bind].
  assert (contains "users" (py_lower (before +:+ word +:+ after)) = true)
    as ->.
  { apply contains_spec. exists (py_lower before), (py_lower after).
    by rewrite !py_lower_app, Hword. }
  eexists. split; [reflexivity|]. done.
Qed.

Lemma graphql_simulator_users_witness :
  exists r,
    graphql_simulator
      (JObj [("query", JStr "{ Posts { id } USERS { id } }")])
      "2024-01-01T00:00:00" = Returns r /\
    status_of r = 200 /\
    (body_of r ≫= Json.get "data") = Some (JObj [("users", users)]) /\
    (body_of r ≫= Json.get "extensions") ≫= Json.get "query" =
      Some (JStr "{ Posts { id } USERS { id } }").
Proof.
  exact (graphql_simulator_users
           [("query", JStr "{ Posts { id } USERS { id } }")]
           "{ Posts { id } " "USERS" " { id } }" "2024-01-01T00:00:00"
           eq_refl eq_refl).
Defined.

(** X17. /advanced/graphql raises AttributeError, and nothing else,
    exactly when the body is not an object or its query is not a
    string; otherwise it returns status 200, and a body without a query
    is answered with "Query not recognized". *)
Theorem graphql_simulator_raises data now :
  match graphql_simulator data now with
  | Fails f =>
      f = AttributeError /\
      forall kvs q,
        data = JObj kvs ->
        default (JStr "") (Json.assoc "query" kvs) <> JStr q
  | Returns r =>
      status_of r = 200 /\
      exists kvs q,
        data = JObj kvs /\
        default (JStr "") (Json.assoc "query" kvs) = JStr q /\
        (Json.assoc "query" kvs = None ->
         (body_of r ≫= Json.get "data") =
           Some (JObj [("message", JStr "Query not recognized")]))
  end.
Proof.
  unfold graphql_simulator.
  destruct data as [| | | | |l|kvs]; cbn [Dyn.get mbind outcome_bind];
    try (split; [done|]; intros ? ? [=]).
  destruct (Json.assoc "query" kvs) as [query|] eqn:Hquery;
    cbn [from_option id].
  - destruct query as [| | | |q| |];
      cbn [Dyn.lower mbind outcome_bind];
      try (split; [done|]; intros ? ? [= <-]; rewrite Hquery; cbn; congruence).
    split; [done|]. exists kvs, q. by rewrite Hquery.
  - cbn. split; [done|]. exists kvs, "". by rewrite Hquery.
Qed.
End Graphql.

(** ** /advanced/nested-resources/<parent_id>/items *)

Section NestedResources.
Import Bodies.

(** X18. GET on the nested resources, for the count that
    [random.randint(1, 10)] gives: the response has status 200, its
    items are as many as the count, they are numbered 1 to the count in
    order, each carries the parent of the path, and total_items is
    their number. *)
Theorem nested_resources_get parent_id data count new_id stamp now :
  1 <= count <= 10 ->
  exists r,
    nested_resources "GET" parent_id data count new_id stamp now =
      Returns (Some r) /\
    status_of r = 200 /\
    (body_of r ≫= Json.get "total_items") = Some (JInt count) /\
    (body_of r ≫= Json.get "parent_id") = Some (JInt parent_id) /\
    ints_of "items" "id" r = seqZ 1 count /\
    ints_of "items" "parent_id" r = replicate (Z.to_nat count) parent_id.
Proof.
  intros Hcount. unfold nested_resources. cbn [String.eqb Ascii.eqb Bool.eqb].
  eexists. split; [reflexivity|].
  split; [done|]. split.
  { cbn. rewrite length_fmap. unfold range. rewrite length_seqZ.
    do 2 f_equal. lia. }
  split; [done|]. unfold ints_of.
  cbn [body_of mbind option_bind Json.get Json.assoc String.eqb Ascii.eqb
         Bool.eqb].
  split.
  - rewrite (ints_of_Forall2 "id" (fun i => i + 1) (range count)).
    + unfold range.
      transitivity (Z.add 1 <$> seqZ 0 count);
        [apply list_fmap_ext; intros; lia|by rewrite fmap_add_seqZ].
    + apply Forall2_fmap_r, Forall_Forall2_diag, Forall_forall. done.
  - rewrite (ints_of_Forall2 "parent_id" (fun _ => parent_id) (range count)).
    + rewrite (const_fmap (fun _ => parent_id) _ parent_id) by done.
      unfold range. by rewrite length_seqZ.
    + apply Forall2_fmap_r, Forall_Forall2_diag, Forall_forall. done.
Qed.

Lemma nested_resources_get_witness :
  exists r,
    nested_resources "GET" 7 JNull 3 1234 (fun _ => "2024-01-01T00:00:00")
      "2024-01-01T00:00:01" = Returns (Some r) /\
    status_of r = 200 /\
    (body_of r ≫= Json.get "total_items") = Some (JInt 3) /\
    (body_of r ≫= Json.get "parent_id") = Some (JInt 7) /\
    ints_of "items" "id" r = [1; 2; 3] /\
    ints_of "items" "parent_id" r = [7; 7; 7].
Proof.
  apply (nested_resources_get 7 JNull 3 1234
           (fun _ => "2024-01-01T00:00:00") "2024-01-01T00:00:01").
  lia.
Defined.

(** X19. The methods of the nested resources other than GET: POST with
    an object for body returns status 201 with the drawn id, the parent
    of the path, and the name of the body or "New Item" when it has
    none; POST with a body that is no object raises AttributeError; for
    any other method (HEAD, which the route also serves) the view
    returns no response at all. *)
Theorem nested_resources_other_methods method parent_id data count new_id
    stamp now :
  method <> "GET" ->
  match nested_resources method parent_id data count new_id stamp now with
  | Returns (Some r) =>
      method = "POST" /\ status_of r = 201 /\
      (body_of r ≫= Json.get "id") = Some (JInt new_id) /\
      (body_of r ≫= Json.get "parent_id") = Some (JInt parent_id) /\
      exists kvs,
        data = JObj kvs /\
        (body_of r ≫= Json.get "name") =
          Some (default (JStr "New Item") (Json.assoc "name" kvs))
  | Returns None => method <> "POST"
  | Fails f =>
      method = "POST" /\ f = AttributeError /\ forall kvs, data <> JObj kvs
  end.
Proof.
  intros Hget. unfold nested_resources.
  destruct (String.eqb_spec method "GET") as [|_]; [done|].
  destruct (String.eqb_spec method "POST") as [->|Hpost]; [|done].
  destruct data; cbn; try done.
  repeat split; try done. by eexists.
Qed.

Lemma nested_resources_other_methods_witness :
  nested_resources "HEAD" 7 JNull 3 1234 (fun _ => "2024-01-01T00:00:00")
    "2024-01-01T00:00:01" = Returns None.
Proof.
  generalize (nested_resources_other_methods "HEAD" 7 JNull 3 1234
                (fun _ => "2024-01-01T00:00:00") "2024-01-01T00:00:01"
                ltac:(discriminate)).
  destruct (nested_resources "HEAD" 7 JNull 3 1234 _ _) as [[r|]|f];
    [intros [[=] _]|done|intros [[=] _]].
Defined.
End NestedResources.

(** ** /simulate/memory-test *)

Section MemoryTest.
Import BodyTests.

Lemma length_insert_str x l : length (insert_str x l) = S (length l).
Proof.
  induction l as [|y l IH]; [done|]. cbn.
  destruct (String.leb x y); cbn; by rewrite ?IH.
Qed.

Lemma length_sorted_str l : length (sorted_str l) = length l.
Proof.
  unfold sorted_str. induction l as [|x l IH]; [done|]. cbn.
  by rewrite length_insert_str, IH.
Qed.

Lemma is_str_true s v : Dyn.is_str s v = true -> v = JStr s.
Proof. destruct v; try done. by intros ->%String.eqb_eq. Qed.

(** X20. /simulate/memory-test on an object whose size [int()] accepts:
    the handler returns status 200; it builds [min(size, 5000)] strings,
    none when that is negative; and the output holds twice as many for
    [duplicate] (also the operation when none is given), one for
    [concatenate], and as many for every other operation, among them
    [reverse] and [sort]. *)
Theorem memory_test_sizes kvs n now :
  Dyn.int (default (JInt 1000) (Json.assoc "size" kvs)) = Returns n ->
  let size := Z.max 0 (Z.min n 5000) in
  let operation := default (JStr "duplicate") (Json.assoc "operation" kvs) in
  exists r,
    memory_test (JObj kvs) now = Returns r /\
    status_of r = 200 /\
    0 <= size <= 5000 /\
    (body_of r ≫= Json.get "input_size") = Some (JInt size) /\
    (body_of r ≫= Json.get "output_size") =
      Some (JInt (if Dyn.is_str "duplicate" operation then 2 * size
                  else if Dyn.is_str "concatenate" operation then 1
                  else size)).
Proof.
  intros Hn size operation. unfold memory_test.
  cbn [Dyn.get mbind outcome_bind]. fold operation. rewrite Hn.
  cbn [mbind outcome_bind].
  eexists. split; [reflexivity|]. split; [done|]. split; [lia|].
  cbn [body_of mbind option_bind Json.get Json.assoc String.eqb Ascii.eqb
         Bool.eqb].
  assert (Z.of_nat (length (range (Z.min n 5000))) = size) as Hsize.
  { unfold range. rewrite length_seqZ. lia. }
  split; do 2 f_equal.
  - by rewrite length_fmap.
  - clearbody operation.
    destruct (Dyn.is_str "duplicate" operation).
    { rewrite length_app, length_fmap. lia. }
    destruct (Dyn.is_str "reverse" operation) eqn:Hreverse.
    { apply is_str_true in Hreverse as ->. by rewrite !length_fmap. }
    destruct (Dyn.is_str "sort" operation) eqn:Hsort.
    { apply is_str_true in Hsort as ->.
      by rewrite length_sorted_str, length_fmap. }
    destruct (Dyn.is_str "concatenate" operation); [done|].
    by rewrite length_fmap.
Qed.

Lemma memory_test_sizes_witness :
  exists r,
    memory_test (JObj [("operation", JStr "sort"); ("size", JStr "7000")])
      "2024-01-01T00:00:00" = Returns r /\
    status_of r = 200 /\
    0 <= 5000 <= 5000 /\
    (body_of r ≫= Json.get "input_size") = Some (JInt 5000) /\
    (body_of r ≫= Json.get "output_size") = Some (JInt 5000).
Proof.
  exact (memory_test_sizes
           [("operation", JStr "sort"); ("size", JStr "7000")] 7000
           "2024-01-01T00:00:00" eq_refl).
Defined.
End MemoryTest.

(** ** /stress/throughput *)

Section Throughput.
Import BodyTests Bodies.

(** X21. /stress/throughput raises only when the body is an object
    whose items are a number, a boolean or null, and then TypeError;
    otherwise it returns status 200, counts the elements of a list of
    items, counts nothing for a body that is no object or has no items,
    and reports a throughput of 0, dividing nothing, when the clock has
    not moved forward. *)
Theorem throughput_test_outcome data start_time end_time now :
  match throughput_test data start_time end_time now with
  | Fails f =>
      f = TypeError /\
      exists kvs items,
        data = JObj kvs /\ Json.assoc "items" kvs = Some items /\
        scalar items = true
  | Returns r =>
      status_of r = 200 /\
      (forall kvs l,
         data = JObj kvs -> Json.assoc "items" kvs = Some (JList l) ->
         (body_of r ≫= Json.get "items_processed") =
           Some (JInt (Z.of_nat (length l)))) /\
      ((forall kvs, data = JObj kvs -> Json.assoc "items" kvs = None) ->
       (body_of r ≫= Json.get "items_processed") = Some (JInt 0)) /\
      ((Float.zero <? Float.sub end_time start_time)%float = false ->
       (body_of r ≫= Json.get "throughput_items_per_second") =
         Some (JInt 0))
  end.
Proof.
  unfold throughput_test.
  destruct data as [| | | | |l|kvs];
    try (cbn [mbind outcome_bind];
         split; [done|]; split; [by intros ? ? [=]|];
         split; [done|by intros ->]).
  destruct (Json.assoc "items" kvs) as [items|] eqn:Hitems.
  - destruct items as [| | | | |l|o];
      cbn [Dyn.iter fmap outcome_fmap mbind outcome_bind];
      try (split; [done|]; by eexists _, _);
      (split; [done|]; split; [|split]);
      try (intros ? ? [= <-]; rewrite Hitems; by intros [= <-]);
      try (intros H; specialize (H _ eq_refl); congruence);
      by intros ->.
  - cbn [mbind outcome_bind]. split; [done|]. split; [|split].
    + intros ? ? [= <-]. by rewrite Hitems.
    + done.
    + by intros ->.
Qed.
End Throughput.
